(** * Sales-lead analysis pipeline ([main.py]): cleaning, derivation,
      filtering and aggregation.

    The development follows [load_data] and [main] of [main.py].  A data
    frame is a list of rows, in index order; a nullable cell (pandas NaN /
    NaT) is an [option]; integer columns are [Z]; float results are
    [Float] values with an explicit not-a-number. *)

From Stdlib Require Import ZArith QArith Bool List Ascii String Lia.
From Stdlib Require Import Permutation Sorted.
Import ListNotations.

Local Open Scope Z_scope.

(* ================================================================= *)
(** ** Timestamps (pandas [Timestamp] at minute resolution) *)

Record Timestamp := mkTimestamp {
  year : Z; month : Z; day : Z; hour : Z; minute : Z
}.

(** [datetime.date], the value of [.dt.date]. *)
Record Date := mkDate { d_year : Z; d_month : Z; d_day : Z }.

Definition date (ts : Timestamp) : Date :=
  mkDate (year ts) (month ts) (day ts).

Definition is_leap (y : Z) : bool :=
  ((y mod 4 =? 0) && negb (y mod 100 =? 0)) || (y mod 400 =? 0).

Definition days_in_month (y m : Z) : Z :=
  if m =? 2 then (if is_leap y then 29 else 28)
  else if (m =? 4) || (m =? 6) || (m =? 9) || (m =? 11) then 30
  else 31.

(** Days since 1970-01-01 of a proleptic Gregorian date. *)
Definition days_from_civil (y m d : Z) : Z :=
  let y' := if m <=? 2 then y - 1 else y in
  let era := y' / 400 in
  let yoe := y' - era * 400 in
  let mp := if 2 <? m then m - 3 else m + 9 in
  let doy := (153 * mp + 2) / 5 + d - 1 in
  let doe := yoe * 365 + yoe / 4 - yoe / 100 + doy in
  era * 146097 + doe - 719468.

(** Minutes since the epoch; the difference of two of these is the
    [Timedelta] of a subtraction. *)
Definition epoch_minutes (ts : Timestamp) : Z :=
  days_from_civil (year ts) (month ts) (day ts) * 1440
  + hour ts * 60 + minute ts.

(** [Timedelta.days]: the days component, i.e. the floor of the signed
    difference divided by one day ([Z.div] rounds towards minus infinity,
    as the days component of a negative timedelta does). *)
Definition timedelta_days (delta_minutes : Z) : Z := delta_minutes / 1440.

(** [Timestamp.day_name()] with the default (English) locale. *)
Definition day_name (ts : Timestamp) : string :=
  match (days_from_civil (year ts) (month ts) (day ts) + 3) mod 7 with
  | 0 => "Monday"
  | 1 => "Tuesday"
  | 2 => "Wednesday"
  | 3 => "Thursday"
  | 4 => "Friday"
  | 5 => "Saturday"
  | _ => "Sunday"
  end%string.

(** A timestamp is representable when its nanosecond count fits the
    int64 that backs [datetime64[ns]] (the minimum is reserved for NaT). *)
Definition in_bounds (ts : Timestamp) : bool :=
  let ns := epoch_minutes ts * 60 * 1000000000 in
  (- 2 ^ 63 <? ns) && (ns <? 2 ^ 63).

(* ================================================================= *)
(** ** [strptime] for the two fixed formats *)

Module Strptime.

Definition parser (A : Type) : Type :=
  list ascii -> option (A * list ascii).

Definition ret {A} (a : A) : parser A := fun s => Some (a, s).

Definition bind {A B} (p : parser A) (k : A -> parser B) : parser B :=
  fun s => match p s with
           | Some (a, rest) => k a rest
           | None => None
           end.

Notation "x <- p ;; k" := (bind p (fun x => k))
  (at level 61, p at next level, right associativity).
Notation "p ;;; k" := (bind p (fun _ => k))
  (at level 61, right associativity).

Definition is_digit (c : ascii) : bool :=
  let n := nat_of_ascii c in (48 <=? n)%nat && (n <=? 57)%nat.

Definition digit_val (c : ascii) : Z := Z.of_nat (nat_of_ascii c) - 48.

(** Python's [str.isspace] on the ASCII range; the class [\s] of a
    regular expression over [str] holds the same characters.  Both also
    hold characters beyond ASCII (the no-break space and others), and
    [\d] holds digits beyond ASCII: the statements that depend on how a
    cell is stripped or parsed are made for cells of ASCII text
    ([ascii_text]). *)
Definition is_space (c : ascii) : bool :=
  let n := nat_of_ascii c in
  ((9 <=? n)%nat && (n <=? 13)%nat)
  || ((28 <=? n)%nat && (n <=? 32)%nat).

Definition digit : parser Z := fun s =>
  match s with
  | c :: rest => if is_digit c then Some (digit_val c, rest) else None
  | [] => None
  end.

Definition lit (c : ascii) : parser unit := fun s =>
  match s with
  | c' :: rest => if Ascii.eqb c c' then Some (tt, rest) else None
  | [] => None
  end.

Definition guard (b : bool) : parser unit := fun s =>
  if b then Some (tt, s) else None.

(** One or two digits, the longest run taken. *)
Definition digits12 : parser Z := fun s =>
  match digit s with
  | None => None
  | Some (a, rest) =>
      match digit rest with
      | Some (b, rest') => Some (10 * a + b, rest')
      | None => Some (a, rest)
      end
  end.

(** [%d]: [3[0-1]|[1-2]\d|0[1-9]|[1-9]| [1-9]]. *)
Definition directive_d : parser Z := fun s =>
  match s with
  | " "%char :: c :: rest =>
      if is_digit c && negb (digit_val c =? 0)
      then Some (digit_val c, rest) else None
  | _ => (v <- digits12 ;; guard ((1 <=? v) && (v <=? 31)) ;;; ret v) s
  end.

(** [%m]: [1[0-2]|0[1-9]|[1-9]]. *)
Definition directive_m : parser Z :=
  v <- digits12 ;; guard ((1 <=? v) && (v <=? 12)) ;;; ret v.

(** [%Y]: [\d\d\d\d]. *)
Definition directive_Y : parser Z :=
  a <- digit ;; b <- digit ;; c <- digit ;; d <- digit ;;
  ret (1000 * a + 100 * b + 10 * c + d).

(** [%H]: [2[0-3]|[0-1]\d|\d]. *)
Definition directive_H : parser Z :=
  v <- digits12 ;; guard (v <=? 23) ;;; ret v.

(** [%M]: [[0-5]\d|\d]. *)
Definition directive_M : parser Z :=
  v <- digits12 ;; guard (v <=? 59) ;;; ret v.

Fixpoint skip_spaces (s : list ascii) : list ascii :=
  match s with
  | c :: rest => if is_space c then skip_spaces rest else s
  | [] => []
  end.

(** A blank of the format stands for [\s+]. *)
Definition spaces1 : parser unit := fun s =>
  match s with
  | c :: rest => if is_space c then Some (tt, skip_spaces rest) else None
  | [] => None
  end.

(** The whole string must be consumed ([exact] matching). *)
Definition run {A} (p : parser A) (s : string) : option A :=
  match p (list_ascii_of_string s) with
  | Some (a, []) => Some a
  | _ => None
  end.

Definition check (ts : Timestamp) : option Timestamp :=
  if (day ts <=? days_in_month (year ts) (month ts)) && in_bounds ts
  then Some ts else None.

(** [format='%d/%m/%Y %H:%M'] *)
Definition creacion (s : string) : option Timestamp :=
  match run (d <- directive_d ;; lit "/" ;;; m <- directive_m ;;
             lit "/" ;;; y <- directive_Y ;; spaces1 ;;;
             h <- directive_H ;; lit ":" ;;; mi <- directive_M ;;
             ret (mkTimestamp y m d h mi)) s with
  | Some ts => check ts
  | None => None
  end.

(** [format='%d/%m/%Y'] *)
Definition conversion (s : string) : option Timestamp :=
  match run (d <- directive_d ;; lit "/" ;;; m <- directive_m ;;
             lit "/" ;;; y <- directive_Y ;;
             ret (mkTimestamp y m d 0 0)) s with
  | Some ts => check ts
  | None => None
  end.

End Strptime.

(** [str.strip()]: leading and trailing white space removed. *)
Fixpoint lstrip (s : list ascii) : list ascii :=
  match s with
  | c :: rest => if Strptime.is_space c then lstrip rest else s
  | [] => []
  end.

Definition strip (s : string) : string :=
  string_of_list_ascii
    (rev (lstrip (rev (lstrip (list_ascii_of_string s))))).

(** Text whose characters are all ASCII (code points below 128). *)
Definition ascii_text (s : string) : bool :=
  forallb (fun c => (nat_of_ascii c <? 128)%nat) (list_ascii_of_string s).


(* ================================================================= *)
(** ** Data frames *)

(** A row of the frame that [pd.read_csv('Ventas.csv')] delivers: every
    cell is a [str] value or missing (NaN). *)
Record RawRow := mkRaw {
  raw_contacto : option string;     (* 'Toma de contacto' *)
  raw_creacion : option string;     (* 'Fecha de Creación' *)
  raw_conversion : option string;   (* 'Fecha de Conversión' *)
  raw_producto : option string      (* 'Producto' *)
}.

(** The row once both date columns went through [pd.to_datetime]. *)
Record DatedRow := mkDated {
  dt_contacto : option string;
  dt_creacion : option Timestamp;
  dt_conversion : option Timestamp;
  dt_producto : option string
}.

(** A row of the frame [load_data] returns. *)
Record Row := mkRow {
  Toma_de_contacto : option string;
  Fecha_de_Creacion : option Timestamp;
  Fecha_de_Conversion : option Timestamp;
  Producto : option string;
  Anio_Creacion : option Z;              (* 'Año_Creacion' *)
  Mes_Creacion : option Z;
  Mes_Anio_Creacion : option (Z * Z);    (* 'Mes_Año_Creacion', a monthly period *)
  Convertido : bool;
  Dias_Hasta_Conversion : option Z
}.

(** What [pd.read_csv] finds: no file; a frame whose column
    'Toma de contacto' it typed as numbers or booleans (every cell of the
    file is numeric, boolean or empty, and one at least is not empty); or
    a frame with that column as text.  A column whose cells are all
    missing, in a frame with a row, is typed float64: see
    [columna_de_texto]. *)
Inductive CsvSource :=
| FileNotFound
| Csv (rows : list RawRow)
| CsvCanalSinTexto.

Inductive Exn :=
| FileNotFoundError
| ValueError
| AttributeError
| OverflowError.

Inductive result (A : Type) :=
| Ok (a : A)
| Raise (e : Exn).
Arguments Ok {A} a.
Arguments Raise {A} e.

Definition notna {A} (c : option A) : bool :=
  match c with Some _ => true | None => false end.

(** The strings that pandas reads as NaT before it tries the format
    ([nat_strings], and the empty string). *)
Definition is_nat_string (s : string) : bool :=
  existsb (String.eqb s) [""; "NaT"; "nat"; "NAT"; "nan"; "NaN"; "NAN"]%string.

(** [pd.to_datetime(cell, format=...)], default [errors='raise']: a missing
    cell and a NaT string give NaT, any other string that does not match
    the format raises. *)
Definition to_datetime_raise (parse : string -> option Timestamp)
    (cell : option string) : result (option Timestamp) :=
  match cell with
  | None => Ok None
  | Some s =>
      if is_nat_string s then Ok None
      else match parse s with
           | Some ts => Ok (Some ts)
           | None => Raise ValueError
           end
  end.

(** [pd.to_datetime(cell, format=..., errors='coerce')]. *)
Definition to_datetime_coerce (parse : string -> option Timestamp)
    (cell : option string) : option Timestamp :=
  match cell with
  | None => None
  | Some s => parse s
  end.

(** Lines 34-35 on the whole frame: the first cell of 'Fecha de Creación'
    that does not parse aborts the conversion of the column. *)
Fixpoint convert_dates (df : list RawRow) : result (list DatedRow) :=
  match df with
  | [] => Ok []
  | r :: rest =>
      match to_datetime_raise Strptime.creacion (raw_creacion r) with
      | Raise e => Raise e
      | Ok creacion =>
          match convert_dates rest with
          | Raise e => Raise e
          | Ok rest' =>
              Ok (mkDated (raw_contacto r) creacion
                    (to_datetime_coerce Strptime.conversion (raw_conversion r))
                    (raw_producto r) :: rest')
          end
      end
  end.

(** Line 29: [df['Toma de contacto'].notna()]. *)
Definition contacto_notna (r : RawRow) : bool := notna (raw_contacto r).

(** Line 30: [df['Toma de contacto'].str.strip() != ''] on a column of
    text (a missing cell strips to a missing cell, which differs from the
    empty string).  On a column that is not text [.str] raises: see
    [columna_de_texto] and [load_data_try]. *)
Definition contacto_not_blank (r : RawRow) : bool :=
  match raw_contacto r with
  | Some s => negb (String.eqb (strip s) EmptyString)
  | None => true
  end.

(** Line 36: the year of NaT is NaN and fails both comparisons. *)
Definition year_in_range (r : DatedRow) : bool :=
  match dt_creacion r with
  | Some ts => (2018 <=? year ts) && (year ts <=? 2021)
  | None => false
  end.

(** Line 48: [(conversion - creation).dt.days.abs()]; NaT on either side
    gives NaN.  The value is that of a difference that fits the int64
    nanoseconds of a timedelta; [load_data_try] raises for the others
    ([resta_en_rango]). *)
Definition dias_hasta_conversion (conversion creacion : option Timestamp)
  : option Z :=
  match conversion, creacion with
  | Some c, Some f =>
      Some (Z.abs (timedelta_days (epoch_minutes c - epoch_minutes f)))
  | _, _ => None
  end.

(** Lines 40-48: the derived columns. *)
Definition derive (r : DatedRow) : Row :=
  {| Toma_de_contacto := dt_contacto r;
     Fecha_de_Creacion := dt_creacion r;
     Fecha_de_Conversion := dt_conversion r;
     Producto := dt_producto r;
     Anio_Creacion := option_map year (dt_creacion r);
     Mes_Creacion := option_map month (dt_creacion r);
     Mes_Anio_Creacion :=
       option_map (fun ts => (year ts, month ts)) (dt_creacion r);
     Convertido := notna (dt_producto r);
     Dias_Hasta_Conversion :=
       dias_hasta_conversion (dt_conversion r) (dt_creacion r) |}.

(** The dtype of 'Toma de contacto' in a frame of [Csv]: object (text)
    when the frame has no row or some cell of the column is a string,
    float64 when the frame has rows and every cell of the column is
    missing. *)
Definition columna_de_texto (df : list RawRow) : bool :=
  match df with
  | [] => true
  | _ :: _ => existsb contacto_notna df
  end.

(** Line 48, the subtraction: the difference of two datetime64[ns] values
    must fit an int64 count of nanoseconds; NaT on either side passes. *)
Definition resta_en_rango (r : DatedRow) : bool :=
  match dt_conversion r, dt_creacion r with
  | Some c, Some f =>
      let ns := (epoch_minutes c - epoch_minutes f) * 60 * 1000000000 in
      (- 2 ^ 63 <=? ns) && (ns <? 2 ^ 63)
  | _, _ => true
  end.

(** The body of the [try] block of [load_data].  Line 30 raises when the
    column is not text ([.str] accepts strings only); line 34 raises on
    the first creation cell that does not parse; line 48 raises when a
    difference overflows. *)
Definition load_data_try (src : CsvSource) : result (list Row) :=
  match src with
  | FileNotFound => Raise FileNotFoundError
  | CsvCanalSinTexto => Raise AttributeError
  | Csv df0 =>
      let df := filter contacto_notna df0 in
      if columna_de_texto df0 then
        let df := filter contacto_not_blank df in
        match convert_dates df with
        | Raise e => Raise e
        | Ok df =>
            let df := filter year_in_range df in
            if forallb resta_en_rango df
            then Ok (map derive df)
            else Raise OverflowError
        end
      else Raise AttributeError
  end.

(** [load_data]: both [except] clauses report the error and return
    [None], whatever was raised. *)
Definition load_data (src : CsvSource) : option (list Row) :=
  match load_data_try src with
  | Ok df => Some df
  | Raise FileNotFoundError => None
  | Raise _ => None
  end.

(* ================================================================= *)
(** ** Filters (lines 106-117) *)

Definition date_le (a b : Date) : bool :=
  (d_year a <? d_year b)
  || ((d_year a =? d_year b)
      && ((d_month a <? d_month b)
          || ((d_month a =? d_month b) && (d_day a <=? d_day b)))).

(** [Series.isin(values)] for a list of strings: a missing cell is in no
    such list. *)
Definition isin (values : list string) (cell : option string) : bool :=
  match cell with
  | Some s => existsb (String.eqb s) values
  | None => false
  end.

Definition in_date_range (fecha_inicio fecha_fin : Date) (r : Row) : bool :=
  match Fecha_de_Creacion r with
  | Some ts => date_le fecha_inicio (date ts) && date_le (date ts) fecha_fin
  | None => false
  end.

(** The truth value of a Python list. *)
Definition truthy {A} (l : list A) : bool :=
  match l with [] => false | _ :: _ => true end.

(** The selections of the sidebar. *)
Record Filters := mkFilters {
  fecha_inicio : Date;
  fecha_fin : Date;
  toma_seleccionada : list string;
  producto_seleccionado : list string
}.

(** Line 113. *)
Definition filter_toma (sel : list string) (df : list Row) : list Row :=
  filter (fun r => isin sel (Toma_de_contacto r)) df.

(** Line 117: the product selection is matched against the column
    'Toma de contacto'. *)
Definition filter_producto (sel : list string) (df : list Row) : list Row :=
  filter (fun r => isin sel (Toma_de_contacto r)) df.

Definition df_filtered (df : list Row) (f : Filters) : list Row :=
  let v := filter (in_date_range (fecha_inicio f) (fecha_fin f)) df in
  let v := if truthy (toma_seleccionada f)
           then filter_toma (toma_seleccionada f) v else v in
  let v := if truthy (producto_seleccionado f)
           then filter_producto (producto_seleccionado f) v else v in
  v.

(* ================================================================= *)
(** ** Floats of the rate columns *)

(** A float64 result: not-a-number, an infinity, or a finite value kept as
    the exact rational it rounds (rounding plays no role below). *)
Inductive Float :=
| NaN
| Inf
| Fin (q : Q).

(** Integer true division as pandas and numpy compute it: [0/0] is NaN
    and [x/0] is infinite, neither raises. *)
Definition true_div (a b : Z) : Float :=
  match b with
  | Zpos p => Fin (Qred (a # p))
  | Zneg p => Fin (Qred (- a # p))
  | Z0 => if a =? 0 then NaN else Inf
  end.

Definition times_100 (x : Float) : Float :=
  match x with
  | Fin q => Fin (Qred (q * 100))
  | other => other
  end.

(** [a / b * 100]. *)
Definition rate (a b : Z) : Float := times_100 (true_div a b).

(* ================================================================= *)
(** ** [groupby(...).agg(...)] *)

(** What [groupby] needs of a key: equality to form the groups and an
    order to sort them ([sort=True]). *)
Class Key (K : Type) := {
  key_eqb : K -> K -> bool;
  key_leb : K -> K -> bool;
  key_eqb_eq : forall a b, key_eqb a b = true <-> a = b
}.

#[export] Instance Key_Z : Key Z :=
  {| key_eqb := Z.eqb; key_leb := Z.leb; key_eqb_eq := Z.eqb_eq |}.

#[export] Instance Key_string : Key string :=
  {| key_eqb := String.eqb; key_leb := String.leb;
     key_eqb_eq := String.eqb_eq |}.

Definition period_eqb (a b : Z * Z) : bool :=
  (fst a =? fst b) && (snd a =? snd b).

Definition period_leb (a b : Z * Z) : bool :=
  (fst a <? fst b) || ((fst a =? fst b) && (snd a <=? snd b)).

Lemma period_eqb_eq (a b : Z * Z) : period_eqb a b = true <-> a = b.
Proof.
  destruct a as [a1 a2], b as [b1 b2]; unfold period_eqb; simpl.
  rewrite andb_true_iff, !Z.eqb_eq.
  split; [intros [-> ->]; reflexivity | intros [= -> ->]; auto].
Qed.

#[export] Instance Key_period : Key (Z * Z) :=
  {| key_eqb := period_eqb; key_leb := period_leb;
     key_eqb_eq := period_eqb_eq |}.

Definition date_eqb (a b : Date) : bool :=
  (d_year a =? d_year b) && (d_month a =? d_month b) && (d_day a =? d_day b).

Lemma date_eqb_eq (a b : Date) : date_eqb a b = true <-> a = b.
Proof.
  destruct a as [y1 m1 d1], b as [y2 m2 d2]; unfold date_eqb; simpl.
  rewrite !andb_true_iff, !Z.eqb_eq.
  split; [intros [[-> ->] ->]; reflexivity | intros [= -> -> ->]; auto].
Qed.

#[export] Instance Key_Date : Key Date :=
  {| key_eqb := date_eqb; key_leb := date_le; key_eqb_eq := date_eqb_eq |}.

Section GroupBy.
Context {K : Type} `{Key K}.

(** The non-missing cells of a column ([dropna=True]). *)
Fixpoint dropna (l : list (option K)) : list K :=
  match l with
  | [] => []
  | Some k :: rest => k :: dropna rest
  | None :: rest => dropna rest
  end.

Definition mem (k : K) (l : list K) : bool := existsb (key_eqb k) l.

(** Distinct values, first occurrences kept. *)
Fixpoint unique_from (seen l : list K) : list K :=
  match l with
  | [] => []
  | k :: rest =>
      if mem k seen then unique_from seen rest
      else k :: unique_from (k :: seen) rest
  end.

Definition unique (l : list K) : list K := unique_from [] l.

Fixpoint insert_key (k : K) (l : list K) : list K :=
  match l with
  | [] => [k]
  | x :: rest => if key_leb k x then k :: l else x :: insert_key k rest
  end.

Definition sort_keys (l : list K) : list K := fold_right insert_key [] l.

(** The group keys, sorted. *)
Definition group_keys (col : Row -> option K) (df : list Row) : list K :=
  sort_keys (unique (dropna (map col df))).

Definition in_group (col : Row -> option K) (k : K) (r : Row) : bool :=
  match col r with
  | Some k' => key_eqb k' k
  | None => false
  end.

Definition group (col : Row -> option K) (k : K) (df : list Row)
  : list Row :=
  filter (in_group col k) df.

(** One row of an aggregation:
    ['Toma de contacto': 'count'], ['Convertido': 'sum'] and the rate
    column computed from them. *)
Record AggRow := mkAgg {
  agg_key : K;
  agg_count : Z;
  agg_ventas : Z;
  Tasa_Conversion : Float
}.

(** ['count']: the non-missing cells of 'Toma de contacto'. *)
Definition count_contacto (g : list Row) : Z :=
  Z.of_nat (List.length (filter (fun r => notna (Toma_de_contacto r)) g)).

(** ['sum'] of the boolean column 'Convertido'. *)
Definition sum_convertido (g : list Row) : Z :=
  Z.of_nat (List.length (filter Convertido g)).

Definition agg_row (k : K) (g : list Row) : AggRow :=
  {| agg_key := k;
     agg_count := count_contacto g;
     agg_ventas := sum_convertido g;
     Tasa_Conversion := rate (sum_convertido g) (count_contacto g) |}.

Definition groupby_agg (col : Row -> option K) (df : list Row)
  : list AggRow :=
  map (fun k => agg_row k (group col k df)) (group_keys col df).

(** Grouping by a categorical column with the default [observed=False]:
    one group per category, in the order of the categories, whether or
    not the category occurs. *)
Definition groupby_categorical_agg (categories : list K)
    (col : Row -> option K) (df : list Row) : list AggRow :=
  map (fun k => agg_row k (group col k df)) categories.

(** Rows whose key is one of [ks]. *)
Definition keyed_in (col : Row -> option K) (ks : list K) (r : Row)
  : bool :=
  match col r with
  | Some k => mem k ks
  | None => false
  end.

End GroupBy.

Arguments AggRow K : clear implicits.

(** Lines 147-152, 189-197, 338-342. *)
Definition monthly_data (v : list Row) : list (AggRow (Z * Z)) :=
  groupby_agg Mes_Anio_Creacion v.

Definition yearly_data (v : list Row) : list (AggRow Z) :=
  groupby_agg Anio_Creacion v.

Definition Fecha_Solo (r : Row) : option Date :=
  option_map date (Fecha_de_Creacion r).

Definition daily_data (v : list Row) : list (AggRow Date) :=
  groupby_agg Fecha_Solo v.

(** Lines 311-323. *)
Definition orden_dias : list string :=
  ["Monday"; "Tuesday"; "Wednesday"; "Thursday"; "Friday"; "Saturday";
   "Sunday"]%string.

(** [pd.Categorical(values, categories=...)]: a value outside the
    categories becomes missing. *)
Definition categorical (categories : list string) (v : option string)
  : option string :=
  match v with
  | Some s => if existsb (String.eqb s) categories then Some s else None
  | None => None
  end.

Definition Dia_Semana (r : Row) : option string :=
  categorical orden_dias (option_map day_name (Fecha_de_Creacion r)).

Definition dia_semana_data (v : list Row) : list (AggRow string) :=
  groupby_categorical_agg orden_dias Dia_Semana v.

(** Lines 224-229, before sorting. *)
Definition contacto_groups (v : list Row) : list (AggRow string) :=
  groupby_agg Toma_de_contacto v.

(** Lines 264-267, before sorting: [Cantidad_Ventas] is the count of the
    non-missing cells of 'Producto' in the group. *)
Record ProductoRow := mkProducto {
  prod_key : string;
  Cantidad_Ventas : Z
}.

Definition count_producto (g : list Row) : Z :=
  Z.of_nat (List.length (filter (fun r => notna (Producto r)) g)).

Definition producto_groups (v : list Row) : list ProductoRow :=
  let ventas := filter Convertido v in
  map (fun k => mkProducto k (count_producto (group Producto k ventas)))
      (group_keys Producto ventas).

(** Lines 124-127: the headline figures. *)
Definition total_registros (v : list Row) : Z := Z.of_nat (List.length v).

Definition total_ventas (v : list Row) : Z :=
  Z.of_nat (List.length (filter Convertido v)).

Definition tasa_conversion (v : list Row) : Float :=
  if 0 <? total_registros v
  then rate (total_ventas v) (total_registros v)
  else Fin 0.

(** [Series.mean()]: missing cells are skipped, the mean of nothing is
    NaN. *)
Definition mean (l : list (option Z)) : Float :=
  let present := flat_map (fun c => match c with Some d => [d] | None => [] end) l in
  match present with
  | [] => NaN
  | _ :: _ => true_div (fold_right Z.add 0 present) (Z.of_nat (List.length present))
  end.

Definition tiempo_promedio_conversion (v : list Row) : Float :=
  mean (map Dias_Hasta_Conversion (filter Convertido v)).

(* ================================================================= *)
(** ** [sort_values(..., ascending=False)] (lines 230 and 268) *)

(** [l[indexer]]: the rows at the positions of the indexer, in its order. *)
Definition take {A} (indexer : list nat) (l : list A) : list A :=
  flat_map (fun i => match nth_error l i with
                     | Some x => [x]
                     | None => []
                     end) indexer.

(** What numpy promises of [argsort(kind='quicksort')], the sort that
    [sort_values] uses by default: the result lists every position once
    and reads the values in ascending order.  The kind is not a stable
    one, so where equal values land is left to the implementation. *)
Definition sorts (argsort : list Z -> list nat) : Prop :=
  forall a : list Z,
    Permutation (argsort a) (seq 0 (List.length a)) /\
    StronglySorted Z.le (map (fun i => nth i a 0) (argsort a)).

Section SortValues.

Variable argsort : list Z -> list nat.

(** pandas' [nargsort] for [ascending=False] on a column without
    missing values: values and positions are reversed, sorted
    ascending, and the indexer is reversed back. *)
Definition nargsort_desc (items : list Z) : list nat :=
  let non_nan_idx := rev (seq 0 (List.length items)) in
  let indexer := take (argsort (rev items)) non_nan_idx in
  rev indexer.

Definition sort_values_desc {A} (col : A -> Z) (df : list A) : list A :=
  take (nargsort_desc (map col df)) df.

(** Line 230. *)
Definition contacto_data (v : list Row) : list (AggRow string) :=
  sort_values_desc agg_ventas (contacto_groups v).

(** Line 268. *)
Definition producto_data (v : list Row) : list ProductoRow :=
  sort_values_desc Cantidad_Ventas (producto_groups v).

(** What one run of [main] hands to the page. *)
Record Dashboard := mkDashboard {
  dash_total_registros : Z;
  dash_total_ventas : Z;
  dash_tasa_conversion : Float;
  dash_tiempo_promedio_conversion : Float;
  dash_monthly_data : list (AggRow (Z * Z));
  dash_yearly_data : list (AggRow Z);
  dash_contacto_data : list (AggRow string);
  dash_producto_data : list ProductoRow;
  dash_dia_semana_data : list (AggRow string);
  dash_daily_data : list (AggRow Date)
}.

Inductive Outcome :=
| Stopped                      (* [if df is None: return] *)
| Rendered (d : Dashboard)
| Crashed.                     (* an exception leaves [main] *)

Definition figures (v : list Row) : Dashboard :=
  {| dash_total_registros := total_registros v;
     dash_total_ventas := total_ventas v;
     dash_tasa_conversion := tasa_conversion v;
     dash_tiempo_promedio_conversion := tiempo_promedio_conversion v;
     dash_monthly_data := monthly_data v;
     dash_yearly_data := yearly_data v;
     dash_contacto_data := contacto_data v;
     dash_producto_data := producto_data v;
     dash_dia_semana_data := dia_semana_data v;
     dash_daily_data := daily_data v |}.

(** [main]: no table, no page.  On a table without rows the minimum and
    the maximum of the creation times (lines 72-73) are NaT, and the page
    is not completed: [NaT.strftime] at line 378 raises, and nothing
    catches it. *)
Definition main (src : CsvSource) (f : Filters) : Outcome :=
  match load_data src with
  | None => Stopped
  | Some [] => Crashed
  | Some df => Rendered (figures (df_filtered df f))
  end.

End SortValues.

(** Two sorts that meet [sorts]: positions are inserted from the last to
    the first into the sorted positions after them.  With
    [before_equal = true] a position goes in front of the equal values
    that follow it (a stable sort); with [false] it goes behind them. *)
Definition goes_first (before_equal : bool) (x y : Z) : bool :=
  if before_equal then x <=? y else x <? y.

Fixpoint insert_pos (before_equal : bool) (a : list Z) (i : nat)
    (l : list nat) : list nat :=
  match l with
  | [] => [i]
  | j :: rest =>
      if goes_first before_equal (nth i a 0) (nth j a 0)
      then i :: l
      else j :: insert_pos before_equal a i rest
  end.

Definition insertion_argsort (before_equal : bool) (a : list Z) : list nat :=
  fold_right (insert_pos before_equal a) [] (seq 0 (List.length a)).

(** numpy's own index sort for [kind='quicksort'], the function
    [aquicksort_] of [npysort/quicksort.cpp]: a quicksort on the array
    [tosort] of positions with the median of three as pivot, the larger
    part pushed on a stack, and an insertion sort once a part has at most
    seventeen cells.  When the depth [2 * floor(log2 num)] is used up
    numpy turns to a heapsort, which is not modelled: [aquicksort] is
    [None] there, as it is where the C code would read outside the array.
    On processors with AVX2 or AVX-512 numpy may run a vectorised sort in
    place of this function; that one is not a stable sort either. *)
Module Numpy.

(** [a[i] = x] on a C array. *)
Fixpoint store (i : nat) (x : nat) (a : list nat) : list nat :=
  match a, i with
  | [], _ => []
  | _ :: rest, O => x :: rest
  | y :: rest, S i' => y :: store i' x rest
  end.

(** [INTP_SWAP(a[i], a[j])]. *)
Definition INTP_SWAP (a : list nat) (i j : nat) : list nat :=
  store j (nth i a 0%nat) (store i (nth j a 0%nat) a).

(** [v[*p]] for the pointer [p = tosort + i]. *)
Definition at_ (v : list Z) (a : list nat) (i : nat) : Z :=
  nth (nth i a 0%nat) v 0.

(** [do { ++pi; } while (v[*pi] < vp);] with [n] cells after [pi]. *)
Fixpoint scan_up (n : nat) (v : list Z) (a : list nat) (vp : Z) (pi : nat)
  : option nat :=
  match n with
  | O => None
  | S n' => if at_ v a (S pi) <? vp then scan_up n' v a vp (S pi)
            else Some (S pi)
  end.

(** [do { --pj; } while (vp < v[*pj]);]. *)
Fixpoint scan_down (v : list Z) (a : list nat) (vp : Z) (pj : nat)
  : option nat :=
  match pj with
  | O => None
  | S pj' => if vp <? at_ v a pj' then scan_down v a vp pj' else Some pj'
  end.

(** The [for (;;)] of the partition: both scans, then a swap unless
    the two pointers have met. *)
Fixpoint partition (fuel : nat) (v : list Z) (a : list nat) (vp : Z)
    (pi pj : nat) : option (list nat * nat) :=
  match fuel with
  | O => None
  | S fuel' =>
      match scan_up (List.length a - 1 - pi) v a vp pi with
      | None => None
      | Some pi =>
          match scan_down v a vp pj with
          | None => None
          | Some pj =>
              if (pj <=? pi)%nat then Some (a, pi)
              else partition fuel' v (INTP_SWAP a pi pj) vp pi pj
          end
      end
  end.

(** [while (pj > pl && vp < v[*pk]) { *pj-- = *pk--; }]. *)
Fixpoint shift (v : list Z) (a : list nat) (pl : nat) (vp : Z) (pj : nat)
  : list nat * nat :=
  match pj with
  | O => (a, pj)
  | S pk =>
      if (pl <? pj)%nat && (vp <? at_ v a pk)
      then shift v (store pj (nth pk a 0%nat) a) pl vp pk
      else (a, pj)
  end.

(** The insertion sort of the cells [pl .. pr]: [n] cells from [pi]
    on are put in their place. *)
Fixpoint insertion (n : nat) (v : list Z) (a : list nat) (pl pi : nat)
  : list nat :=
  match n with
  | O => a
  | S n' =>
      let vi := nth pi a 0%nat in
      let '(a', pj) := shift v a pl (nth vi v 0) pi in
      insertion n' v (store pj vi a') pl (S pi)
  end.

Definition SMALL_QUICKSORT : nat := 16.

(** One round of [while (1)]: a partition while the part is large,
    else the insertion sort and the next part from the stack.  [popped]
    tells that the round starts at the head of the loop, the only place
    where the depth is tested. *)
Fixpoint loop (fuel : nat) (v : list Z) (a : list nat) (pl pr : nat)
    (stack : list (nat * nat * Z)) (cdepth : Z) (popped : bool)
  : option (list nat) :=
  match fuel with
  | O => None
  | S fuel' =>
      if popped && (cdepth <? 0) then None
      else if (SMALL_QUICKSORT <? pr - pl)%nat then
        let pm := (pl + Nat.div2 (pr - pl))%nat in
        let a := if at_ v a pm <? at_ v a pl then INTP_SWAP a pm pl else a in
        let a := if at_ v a pr <? at_ v a pm then INTP_SWAP a pr pm else a in
        let a := if at_ v a pm <? at_ v a pl then INTP_SWAP a pm pl else a in
        let vp := at_ v a pm in
        let a := INTP_SWAP a pm (pr - 1) in
        match partition (List.length a) v a vp pl (pr - 1) with
        | None => None
        | Some (a, pi) =>
            let a := INTP_SWAP a pi (pr - 1) in
            let cdepth := cdepth - 1 in
            if (pi - pl <? pr - pi)%nat
            then loop fuel' v a pl (pi - 1)
                   ((S pi, pr, cdepth) :: stack) cdepth false
            else loop fuel' v a (S pi) pr
                   ((pl, (pi - 1)%nat, cdepth) :: stack) cdepth false
        end
      else
        let a := insertion (pr - pl) v a pl (S pl) in
        match stack with
        | [] => Some a
        | (pl, pr, cdepth) :: stack => loop fuel' v a pl pr stack cdepth true
        end
  end.

(** [tosort] starts as [0 .. num - 1]. *)
Definition aquicksort (v : list Z) : option (list nat) :=
  let num := List.length v in
  loop (2 * num + 1) v (seq 0 num) 0 (num - 1) []
       (Z.log2 (Z.of_nat num) * 2) true.

Definition argsort (v : list Z) : list nat :=
  match aquicksort v with
  | Some tosort => tosort
  | None => []
  end.

End Numpy.

(* ================================================================= *)
(** ** The sidebar options and the smaller views of [main] *)

#[export] Instance Key_option_string : Key (option string).
Proof.
  refine {| key_eqb := fun a b =>
              match a, b with
              | Some x, Some y => String.eqb x y
              | None, None => true
              | _, _ => false
              end;
            key_leb := fun a b =>
              match a, b with
              | Some x, Some y => String.leb x y
              | None, _ => true
              | Some _, None => false
              end |}.
  intros [x|] [y|]; try (split; [discriminate | congruence]).
  - rewrite String.eqb_eq. split; congruence.
  - split; reflexivity.
Defined.

(** Line 90: [['Todos'] + list(df['Toma de contacto'].unique())]; a
    missing cell would be one of the values. *)
Definition tomas_contacto (df : list Row) : list (option string) :=
  Some "Todos"%string :: unique (map Toma_de_contacto df).

(** Line 98: [['Todos'] + list(df['Producto'].dropna().unique())]. *)
Definition productos (df : list Row) : list string :=
  "Todos"%string :: unique (dropna (map Producto df)).

(** [DataFrame.head(n)] (lines 276 and 286). *)
Definition head {A} (n : nat) (df : list A) : list A := firstn n df.

(** Line 300: whether the histogram of the days to conversion is drawn. *)
Definition hay_tiempos (v : list Row) : bool :=
  existsb (fun r => notna (Dias_Hasta_Conversion r)) (filter Convertido v).

(** [pd.isna] of a float. *)
Definition isna (x : Float) : bool :=
  match x with NaN => true | _ => false end.

(** Line 139: the fourth metric reads "N/A" when the mean is missing. *)
Definition tiempo_es_NA (v : list Row) : bool :=
  isna (tiempo_promedio_conversion v).

(** Lines 376-377: the two counts of the sidebar. *)
Definition registros_sidebar (df : list Row) (f : Filters) : Z * Z :=
  (Z.of_nat (List.length df), Z.of_nat (List.length (df_filtered df f))).

(** What [load_data] makes of one row of the file that it keeps. *)
Definition limpia (r : RawRow) : Row :=
  derive (mkDated (raw_contacto r)
            (to_datetime_coerce Strptime.creacion (raw_creacion r))
            (to_datetime_coerce Strptime.conversion (raw_conversion r))
            (raw_producto r)).

(** The rows of the file that [load_data] keeps when it succeeds. *)
Definition se_conserva (r : RawRow) : bool :=
  contacto_notna r && contacto_not_blank r
  && match to_datetime_coerce Strptime.creacion (raw_creacion r) with
     | Some ts => (2018 <=? year ts) && (year ts <=? 2021)
     | None => false
     end.

(** The three filters of lines 106-117 as one test on a row. *)
Definition pasa (f : Filters) (r : Row) : bool :=
  in_date_range (fecha_inicio f) (fecha_fin f) r
  && (negb (truthy (toma_seleccionada f))
      || isin (toma_seleccionada f) (Toma_de_contacto r))
  && (negb (truthy (producto_seleccionado f))
      || isin (producto_seleccionado f) (Toma_de_contacto r)).

(** A row of the frame whose channel and date cells, where present, are
    ASCII text. *)
Definition celda_ascii (cell : option string) : bool :=
  match cell with
  | Some s => ascii_text s
  | None => true
  end.

Definition fila_ascii (r : RawRow) : bool :=
  celda_ascii (raw_contacto r) && celda_ascii (raw_creacion r)
  && celda_ascii (raw_conversion r).

(** The cells of a row that do not come from the conversion column. *)
Definition sin_conversion (r : Row)
  : option string * option Timestamp * option string * bool :=
  (Toma_de_contacto r, Fecha_de_Creacion r, Producto r, Convertido r).

(** The row of the file with another conversion cell. *)
Definition with_conversion (c : RawRow -> option string) (r : RawRow)
  : RawRow :=
  mkRaw (raw_contacto r) (raw_creacion r) (c r) (raw_producto r).

Definition same_but_conversion (d d' : DatedRow) : Prop :=
  dt_contacto d' = dt_contacto d /\ dt_creacion d' = dt_creacion d /\
  dt_producto d' = dt_producto d.

(* ================================================================= *)
(** ** Vocabulary of the statements *)

Definition sum_Z (l : list Z) : Z := fold_right Z.add 0 l.

(** The cells of a row that [load_data] has cleaned and derived. *)
Record canonical (r : Row) : Prop := {
  can_contacto : notna (Toma_de_contacto r) = true;
  can_creacion : exists ts, Fecha_de_Creacion r = Some ts
                            /\ 2018 <= year ts <= 2021;
  can_anio : Anio_Creacion r = option_map year (Fecha_de_Creacion r);
  can_convertido : Convertido r = notna (Producto r);
  can_dias : Dias_Hasta_Conversion r =
             dias_hasta_conversion (Fecha_de_Conversion r)
                                   (Fecha_de_Creacion r)
}.

(** [x] stands somewhere before [y] in [l]. *)
Definition precedes {A} (x y : A) (l : list A) : Prop :=
  exists l1 l2 l3, l = l1 ++ x :: l2 ++ y :: l3.

(** [precedes] on strings, as a test. *)
Fixpoint precedesb (x y : string) (l : list string) : bool :=
  match l with
  | [] => false
  | z :: rest =>
      (String.eqb z x && existsb (String.eqb y) rest) || precedesb x y rest
  end.

(** Rows with equal values of [col] stand in [sorted] in the order they
    had in [original]. *)
Definition ties_keep_order {A} (col : A -> Z) (original sorted : list A)
  : Prop :=
  forall x y, precedes x y sorted -> col x = col y -> precedes x y original.

(** Rows that carry the four keys derived from the creation time. *)
Definition keyed (r : Row) : Prop :=
  notna (Mes_Anio_Creacion r) = true /\ notna (Anio_Creacion r) = true /\
  notna (Fecha_Solo r) = true /\
  keyed_in Dia_Semana orden_dias r = true.

(** A rate between 0 and 100. *)
Definition percentage (x : Float) : Prop :=
  exists q, x = Fin q /\ (0 <= q)%Q /\ (q <= 100)%Q.

(** A row of a rate table whose figures fit together. *)
Definition coherent {K} (row : AggRow K) : Prop :=
  0 <= agg_ventas row <= agg_count row /\
  Tasa_Conversion row = rate (agg_ventas row) (agg_count row) /\
  (0 < agg_count row -> percentage (Tasa_Conversion row)).

(** Earlier month, earlier day. *)
Definition antes_periodo (a b : Z * Z) : Prop :=
  fst a < fst b \/ (fst a = fst b /\ snd a < snd b).

Definition antes_fecha (a b : Date) : Prop :=
  d_year a < d_year b \/
  (d_year a = d_year b /\
   (d_month a < d_month b \/ (d_month a = d_month b /\ d_day a < d_day b))).

(** The cells that [mean] averages. *)
Definition presentes (l : list (option Z)) : list Z :=
  flat_map (fun c => match c with Some d => [d] | None => [] end) l.

(** A calendar minute: the fields of a timestamp that exists. *)
Definition valid_timestamp (ts : Timestamp) : Prop :=
  1 <= month ts <= 12 /\
  1 <= day ts <= days_in_month (year ts) (month ts) /\
  0 <= hour ts <= 23 /\ 0 <= minute ts <= 59 /\
  in_bounds ts = true.

(** The calendar days from the day of [a] to the day of [b]. *)
Definition dias_de_calendario (a b : Timestamp) : Z :=
  days_from_civil (year b) (month b) (day b)
  - days_from_civil (year a) (month a) (day a).

(** The days to conversion as the specification words them: the absolute
    value of conversion time minus creation time, in whole days. *)
Definition spec_days_to_conversion (conversion creacion : Timestamp) : Z :=
  Z.abs (epoch_minutes conversion - epoch_minutes creacion) / 1440.

(** A small [Ventas.csv] and sidebar selections used to run the
    definitions. *)
Module Sample.
Local Open Scope string_scope.

Definition ventas : list RawRow :=
  [ mkRaw (Some "Web") (Some "01/01/2019 10:00") (Some "01/01/2019") (Some "A");
    mkRaw (Some "Web") (Some "15/01/2019 09:00") None None;
    mkRaw (Some "Tel") (Some "16/01/2019 09:00") (Some "17/01/2019") (Some "B");
    mkRaw (Some "  ") (Some "02/01/2019 10:00") None None;
    mkRaw (Some "Tel") None None (Some "B");
    mkRaw (Some "Tel") (Some "16/01/2017 09:00") (Some "pendiente") (Some "B") ].

(** The same file with one more lead, whose creation cell is in
    another format. *)
Definition celda_iso : string := "2019-01-15 09:00".

Definition fila_iso : RawRow := mkRaw (Some "Web") (Some celda_iso) None None.

Definition ventas_iso : list RawRow := (ventas ++ [fila_iso])%list.

Definition todos : Filters :=
  mkFilters (mkDate 2018 1 1) (mkDate 2021 12 31) [] [].

Definition producto_web : Filters :=
  mkFilters (mkDate 2018 1 1) (mkDate 2021 12 31) [] ["Web"].

Definition solo_2020 : Filters :=
  mkFilters (mkDate 2020 1 1) (mkDate 2020 12 31) [] [].

Definition lead (contacto : string) (creacion : Timestamp)
    (conversion : option Timestamp) (producto : option string) : Row :=
  derive (mkDated (Some contacto) (Some creacion) conversion producto).

Definition web_a : Row :=
  lead "Web" (mkTimestamp 2019 1 1 10 0)
    (Some (mkTimestamp 2019 1 1 0 0)) (Some "A").

Definition web_open : Row :=
  lead "Web" (mkTimestamp 2019 1 15 9 0) None None.

Definition tel_b : Row :=
  lead "Tel" (mkTimestamp 2019 1 16 9 0)
    (Some (mkTimestamp 2019 1 17 0 0)) (Some "B").

(** What [load_data] makes of [ventas]. *)
Definition df : list Row := [web_a; web_open; tel_b].

(** A file with one lead for each of eighteen channels; the leads of
    eight of them were sold product A. *)
Definition canales : list RawRow :=
  [ mkRaw (Some "C01") (Some "01/03/2020 09:00") None None;
    mkRaw (Some "C02") (Some "01/03/2020 09:00") None None;
    mkRaw (Some "C03") (Some "01/03/2020 09:00")
      (Some "02/03/2020") (Some "A");
    mkRaw (Some "C04") (Some "01/03/2020 09:00")
      (Some "02/03/2020") (Some "A");
    mkRaw (Some "C05") (Some "01/03/2020 09:00") None None;
    mkRaw (Some "C06") (Some "01/03/2020 09:00") None None;
    mkRaw (Some "C07") (Some "01/03/2020 09:00")
      (Some "02/03/2020") (Some "A");
    mkRaw (Some "C08") (Some "01/03/2020 09:00")
      (Some "02/03/2020") (Some "A");
    mkRaw (Some "C09") (Some "01/03/2020 09:00") None None;
    mkRaw (Some "C10") (Some "01/03/2020 09:00") None None;
    mkRaw (Some "C11") (Some "01/03/2020 09:00")
      (Some "02/03/2020") (Some "A");
    mkRaw (Some "C12") (Some "01/03/2020 09:00")
      (Some "02/03/2020") (Some "A");
    mkRaw (Some "C13") (Some "01/03/2020 09:00") None None;
    mkRaw (Some "C14") (Some "01/03/2020 09:00") None None;
    mkRaw (Some "C15") (Some "01/03/2020 09:00")
      (Some "02/03/2020") (Some "A");
    mkRaw (Some "C16") (Some "01/03/2020 09:00")
      (Some "02/03/2020") (Some "A");
    mkRaw (Some "C17") (Some "01/03/2020 09:00") None None;
    mkRaw (Some "C18") (Some "01/03/2020 09:00") None None ].

Definition canales_df : list Row := map limpia (filter se_conserva canales).
End Sample.

(* ================================================================= *)
(** ** What [load_data] guarantees of every row it returns *)

Lemma convert_dates_ok (df : list RawRow) (out : list DatedRow) :
  convert_dates df = Ok out ->
  Forall2 (fun r d =>
             dt_contacto d = raw_contacto r /\
             to_datetime_raise Strptime.creacion (raw_creacion r)
               = Ok (dt_creacion d) /\
             dt_conversion d
               = to_datetime_coerce Strptime.conversion (raw_conversion r) /\
             dt_producto d = raw_producto r) df out.
Proof.
  revert out; induction df as [|r df IH]; simpl; intros out Hc.
  - injection Hc as <-. constructor.
  - destruct (to_datetime_raise Strptime.creacion (raw_creacion r))
      as [c|e] eqn:Hr; [|discriminate].
    destruct (convert_dates df) as [rest|e]; [|discriminate].
    injection Hc as <-. constructor; auto.
Qed.

Lemma convert_dates_raises (df : list RawRow) (r : RawRow) (s : string) :
  In r df -> raw_creacion r = Some s ->
  is_nat_string s = false -> Strptime.creacion s = None ->
  convert_dates df = Raise ValueError.
Proof.
  induction df as [|x df IH]; simpl; [tauto|].
  intros [->|Hin] Hs Hn Hp.
  - unfold to_datetime_raise. rewrite Hs, Hn, Hp. reflexivity.
  - destruct (to_datetime_raise Strptime.creacion (raw_creacion x)) as [c|e] eqn:Hx.
    + rewrite (IH Hin Hs Hn Hp). reflexivity.
    + unfold to_datetime_raise in Hx.
      destruct (raw_creacion x) as [sx|]; [|discriminate].
      destruct (is_nat_string sx); [discriminate|].
      destruct (Strptime.creacion sx); [discriminate|].
      injection Hx as <-. reflexivity.
Qed.

Lemma Forall2_right_In {A B} (P : A -> B -> Prop) (l : list A) (l' : list B) (b : B) :
  Forall2 P l l' -> In b l' -> exists a, In a l /\ P a b.
Proof.
  induction 1 as [|a b' l l' Hab _ IH]; simpl; [tauto|].
  intros [->|Hin].
  - exists a; auto.
  - destruct (IH Hin) as [a' [? ?]]. exists a'; auto.
Qed.

Lemma load_data_inv (src : CsvSource) (df : list Row) :
  load_data src = Some df ->
  exists raw dated,
    src = Csv raw /\
    convert_dates (filter contacto_not_blank (filter contacto_notna raw))
      = Ok dated /\
    df = map derive (filter year_in_range dated).
Proof.
  unfold load_data, load_data_try.
  destruct src as [|raw|]; [discriminate| |discriminate].
  destruct (columna_de_texto raw); [|discriminate].
  destruct (convert_dates _) as [dated|e] eqn:Hc.
  - destruct (forallb resta_en_rango (filter year_in_range dated));
      [|discriminate].
    intros [= <-]. exists raw, dated. auto.
  - destruct e; discriminate.
Qed.

Lemma load_data_inv_full (raw : list RawRow) (df : list Row) :
  load_data (Csv raw) = Some df ->
  columna_de_texto raw = true /\
  exists dated,
    convert_dates (filter contacto_not_blank (filter contacto_notna raw))
      = Ok dated /\
    forallb resta_en_rango (filter year_in_range dated) = true /\
    df = map derive (filter year_in_range dated).
Proof.
  unfold load_data, load_data_try.
  destruct (columna_de_texto raw); [|discriminate].
  destruct (convert_dates _) as [dated|e] eqn:Hc.
  - destruct (forallb resta_en_rango (filter year_in_range dated)) eqn:Hr;
      [|discriminate].
    intros [= <-]. split; [reflexivity|]. exists dated. auto.
  - destruct e; discriminate.
Qed.

Lemma load_data_intro (raw : list RawRow) (dated : list DatedRow) :
  columna_de_texto raw = true ->
  convert_dates (filter contacto_not_blank (filter contacto_notna raw))
    = Ok dated ->
  forallb resta_en_rango (filter year_in_range dated) = true ->
  load_data (Csv raw) = Some (map derive (filter year_in_range dated)).
Proof.
  intros Ht Hc Hr. unfold load_data, load_data_try.
  rewrite Ht, Hc, Hr. reflexivity.
Qed.

Lemma load_data_canonical (src : CsvSource) (df : list Row) :
  load_data src = Some df -> Forall canonical df.
Proof.
  intros H. destruct (load_data_inv _ _ H) as (raw & dated & -> & Hc & ->).
  apply Forall_forall. intros r Hr.
  apply in_map_iff in Hr. destruct Hr as (d & <- & Hd).
  apply filter_In in Hd. destruct Hd as [Hd Hy].
  destruct (Forall2_right_In _ _ _ _ (convert_dates_ok _ _ Hc) Hd)
    as (x & Hx & Hcon & _).
  apply filter_In in Hx. destruct Hx as [Hx _].
  apply filter_In in Hx. destruct Hx as [_ Hx].
  unfold year_in_range in Hy. destruct (dt_creacion d) as [ts|] eqn:Hts;
    [|discriminate].
  apply andb_true_iff in Hy. destruct Hy as [Hlo Hhi].
  apply Z.leb_le in Hlo, Hhi.
  constructor; simpl.
  - rewrite Hcon. exact Hx.
  - exists ts. rewrite Hts. auto.
  - reflexivity.
  - reflexivity.
  - reflexivity.
Qed.

Lemma df_filtered_incl (df : list Row) (f : Filters) (r : Row) :
  In r (df_filtered df f) -> In r df.
Proof.
  unfold df_filtered, filter_toma, filter_producto.
  destruct (truthy (toma_seleccionada f)), (truthy (producto_seleccionado f));
    intros Hin; repeat (apply filter_In in Hin; destruct Hin as [Hin _]);
    exact Hin.
Qed.

Lemma df_filtered_canonical (df : list Row) (f : Filters) :
  Forall canonical df -> Forall canonical (df_filtered df f).
Proof.
  rewrite !Forall_forall. intros H r Hr. apply H.
  eapply df_filtered_incl; eauto.
Qed.

(* ================================================================= *)
(** ** Counting with [filter] *)

Lemma filter_all {A} (p : A -> bool) (l : list A) :
  (forall x, In x l -> p x = true) -> filter p l = l.
Proof.
  induction l as [|a l IH]; simpl; intros Hall; [reflexivity|].
  rewrite (Hall a (or_introl eq_refl)). f_equal. apply IH. auto.
Qed.

Lemma filter_none {A} (p : A -> bool) (l : list A) :
  (forall x, In x l -> p x = false) -> filter p l = [].
Proof.
  induction l as [|a l IH]; simpl; intros Hall; [reflexivity|].
  rewrite (Hall a (or_introl eq_refl)). apply IH. auto.
Qed.

Lemma filter_length_split {A} (p q pq : A -> bool) (l : list A) :
  (forall x, In x l -> pq x = p x || q x) ->
  (forall x, In x l -> p x = true -> q x = false) ->
  List.length (filter pq l)
  = (List.length (filter p l) + List.length (filter q l))%nat.
Proof.
  induction l as [|a l IH]; simpl; intros Hor Hdis; [reflexivity|].
  rewrite (Hor a (or_introl eq_refl)).
  specialize (Hdis a (or_introl eq_refl)) as Ha.
  destruct (p a); simpl.
  - rewrite (Ha eq_refl); simpl. rewrite IH; auto.
  - destruct (q a); simpl; rewrite IH; auto.
Qed.

Lemma filter_length_le {A} (p : A -> bool) (l : list A) :
  (List.length (filter p l) <= List.length l)%nat.
Proof.
  induction l as [|a l IH]; simpl; [lia|]. destruct (p a); simpl; lia.
Qed.

Lemma sum_Z_perm (l l' : list Z) : Permutation l l' -> sum_Z l = sum_Z l'.
Proof.
  induction 1; simpl; lia.
Qed.

(* ================================================================= *)
(** ** The groups of [groupby] partition the rows with a key *)

Section GroupByFacts.
Context {K : Type} `{Key K}.

Lemma key_eqb_refl (k : K) : key_eqb k k = true.
Proof. apply key_eqb_eq. reflexivity. Qed.

Lemma mem_In (k : K) (l : list K) : mem k l = true <-> In k l.
Proof.
  unfold mem. rewrite existsb_exists. split.
  - intros (x & Hx & He). apply key_eqb_eq in He. subst. exact Hx.
  - intros Hin. exists k. split; [exact Hin | apply key_eqb_refl].
Qed.

Lemma mem_false (k : K) (l : list K) : mem k l = false <-> ~ In k l.
Proof.
  rewrite <- mem_In. destruct (mem k l); split; congruence.
Qed.

Lemma dropna_In (k : K) (l : list (option K)) :
  In k (dropna l) <-> In (Some k) l.
Proof.
  induction l as [|[x|] l IH]; simpl.
  - tauto.
  - rewrite IH. split; intros [Hx|Hx]; auto; left; congruence.
  - rewrite IH. split; [auto | intros [Hx|Hx]; [discriminate | auto]].
Qed.

Lemma unique_from_In (seen l : list K) (k : K) :
  In k (unique_from seen l) <-> In k l /\ ~ In k seen.
Proof.
  revert seen; induction l as [|x l IH]; simpl; intros seen.
  - tauto.
  - destruct (mem x seen) eqn:Hm.
    + apply mem_In in Hm. rewrite IH. split.
      * intros [? ?]; auto.
      * intros [[->|Hin] Hn]; [contradiction | auto].
    + apply mem_false in Hm. simpl. rewrite IH. simpl. split.
      * intros [->|[Hin Hn]]; [auto | split; [auto | tauto]].
      * intros [[->|Hin] Hn]; [auto|].
        destruct (key_eqb x k) eqn:He.
        -- apply key_eqb_eq in He. auto.
        -- right. split; [exact Hin|]. intros [->|Hs]; [|contradiction].
           rewrite key_eqb_refl in He. discriminate.
Qed.

Lemma unique_from_NoDup (seen l : list K) : NoDup (unique_from seen l).
Proof.
  revert seen; induction l as [|x l IH]; simpl; intros seen.
  - constructor.
  - destruct (mem x seen); [apply IH|].
    constructor; [|apply IH].
    rewrite unique_from_In. simpl. tauto.
Qed.

Lemma insert_key_perm (k : K) (l : list K) :
  Permutation (insert_key k l) (k :: l).
Proof.
  induction l as [|x l IH]; simpl; [reflexivity|].
  destruct (key_leb k x); [reflexivity|].
  rewrite IH. apply perm_swap.
Qed.

Lemma sort_keys_perm (l : list K) : Permutation (sort_keys l) l.
Proof.
  induction l as [|x l IH]; simpl; [reflexivity|].
  rewrite insert_key_perm. constructor. exact IH.
Qed.

Lemma group_keys_NoDup (col : Row -> option K) (v : list Row) :
  NoDup (group_keys col v).
Proof.
  unfold group_keys.
  eapply Permutation_NoDup;
    [symmetry; apply sort_keys_perm | apply unique_from_NoDup].
Qed.

Lemma group_keys_In (col : Row -> option K) (v : list Row) (k : K) :
  In k (group_keys col v) <-> exists r, In r v /\ col r = Some k.
Proof.
  unfold group_keys, unique.
  transitivity (In k (unique_from [] (dropna (map col v)))).
  - split; apply Permutation_in;
      [apply sort_keys_perm | symmetry; apply sort_keys_perm].
  - rewrite unique_from_In, dropna_In, in_map_iff. simpl.
    split.
    + intros [(r & Hr & Hin) _]. exists r; auto.
    + intros (r & Hin & Hr). split; [exists r; auto | tauto].
Qed.

Lemma groups_partition (col : Row -> option K) (ks : list K)
    (v : list Row) :
  NoDup ks ->
  sum_Z (map (fun k => Z.of_nat (List.length (group col k v))) ks)
  = Z.of_nat (List.length (filter (keyed_in col ks) v)).
Proof.
  induction 1 as [|k ks Hk Hnd IH]; simpl.
  - rewrite filter_none; [reflexivity|].
    intros r _. unfold keyed_in. destruct (col r); reflexivity.
  - rewrite IH. unfold group.
    rewrite (filter_length_split (in_group col k) (keyed_in col ks)
               (keyed_in col (k :: ks))).
    + lia.
    + intros r _. unfold keyed_in, in_group.
      destruct (col r) as [k'|]; reflexivity.
    + intros r _. unfold keyed_in, in_group.
      destruct (col r) as [k'|]; [|discriminate].
      intros He. apply key_eqb_eq in He. subst k'.
      apply mem_false. exact Hk.
Qed.

Lemma groups_cover (col : Row -> option K) (v : list Row) :
  sum_Z (map (fun k => Z.of_nat (List.length (group col k v)))
             (group_keys col v))
  = Z.of_nat (List.length (filter (fun r => notna (col r)) v)).
Proof.
  rewrite groups_partition by apply group_keys_NoDup.
  do 2 f_equal. apply filter_ext_in. intros r Hr.
  unfold keyed_in. destruct (col r) as [k|] eqn:Hc; [|reflexivity].
  simpl. apply mem_In. apply group_keys_In. exists r; auto.
Qed.

Lemma group_incl (col : Row -> option K) (k : K) (v : list Row) (r : Row) :
  In r (group col k v) -> In r v /\ col r = Some k.
Proof.
  unfold group, in_group. intros Hin. apply filter_In in Hin.
  destruct Hin as [Hin Hk]. split; [exact Hin|].
  destruct (col r) as [k'|]; [|discriminate].
  apply key_eqb_eq in Hk. congruence.
Qed.

Lemma groupby_agg_In (col : Row -> option K) (v : list Row)
    (row : AggRow K) :
  In row (groupby_agg col v) ->
  exists k, In k (group_keys col v) /\ row = agg_row k (group col k v).
Proof.
  unfold groupby_agg. rewrite in_map_iff.
  intros (k & <- & Hk). exists k; auto.
Qed.

End GroupByFacts.

(* ================================================================= *)
(** ** [take] and the descending sort *)

Lemma take_app {A} (p q : list nat) (l : list A) :
  take (p ++ q) l = take p l ++ take q l.
Proof. unfold take. apply flat_map_app. Qed.

Lemma take_seq_app {A} (l1 l2 : list A) :
  take (seq (List.length l1) (List.length l2)) (l1 ++ l2) = l2.
Proof.
  revert l1; induction l2 as [|x l2 IH]; intros l1; simpl; [reflexivity|].
  rewrite nth_error_app2 by lia. rewrite Nat.sub_diag. simpl. f_equal.
  specialize (IH (l1 ++ [x])).
  rewrite length_app, <- app_assoc in IH. simpl in IH.
  rewrite Nat.add_1_r in IH. exact IH.
Qed.

Lemma take_seq {A} (l : list A) : take (seq 0 (List.length l)) l = l.
Proof. apply (take_seq_app [] l). Qed.

Lemma take_perm {A} (p q : list nat) (l : list A) :
  Permutation p q -> Permutation (take p l) (take q l).
Proof. intros Hpq. unfold take. rewrite Hpq. reflexivity. Qed.

Lemma take_in_range {A} (d : A) (p : list nat) (l : list A) :
  (forall i, In i p -> (i < List.length l)%nat) ->
  take p l = map (fun i => nth i l d) p.
Proof.
  induction p as [|i p IH]; simpl; intros Hr; [reflexivity|].
  rewrite (nth_error_nth' l d) by (apply Hr; auto).
  simpl. f_equal. apply IH. auto.
Qed.

Lemma take_map {A B} (g : A -> B) (p : list nat) (l : list A) :
  map g (take p l) = take p (map g l).
Proof.
  induction p as [|i p IH]; simpl; [reflexivity|].
  rewrite map_app, IH, nth_error_map.
  destruct (nth_error l i); reflexivity.
Qed.

Lemma StronglySorted_snoc {A} (R : A -> A -> Prop) (l : list A) (a : A) :
  StronglySorted R l -> Forall (fun y => R y a) l ->
  StronglySorted R (l ++ [a]).
Proof.
  induction 1 as [|x l Hs IH Hx]; simpl; intros Hall.
  - constructor; constructor.
  - inversion Hall; subst. constructor; [auto|].
    apply Forall_app. split; [exact Hx | constructor; auto].
Qed.

Lemma StronglySorted_rev {A} (R : A -> A -> Prop) (l : list A) :
  StronglySorted R l -> StronglySorted (fun x y => R y x) (rev l).
Proof.
  induction 1 as [|x l Hs IH Hx]; simpl; [constructor|].
  apply StronglySorted_snoc; [exact IH|].
  apply Forall_rev. exact Hx.
Qed.

Lemma StronglySorted_impl {A} (R R' : A -> A -> Prop) (l : list A) :
  (forall x y, R x y -> R' x y) ->
  StronglySorted R l -> StronglySorted R' l.
Proof.
  intros Himp. induction 1 as [|x l Hs IH Hx]; constructor; auto.
  eapply Forall_impl; [|exact Hx]. auto.
Qed.

Lemma StronglySorted_map {A B} (R : B -> B -> Prop) (g : A -> B)
    (l : list A) :
  StronglySorted (fun x y => R (g x) (g y)) l -> StronglySorted R (map g l).
Proof.
  induction 1 as [|x l Hs IH Hx]; simpl; constructor; auto.
  apply Forall_map. exact Hx.
Qed.

Section SortValuesFacts.

Variable argsort : list Z -> list nat.
Hypothesis argsort_sorts : sorts argsort.

Lemma argsort_range (a : list Z) (i : nat) :
  In i (argsort a) -> (i < List.length a)%nat.
Proof.
  intros Hin. destruct (argsort_sorts a) as [Hp _].
  apply (Permutation_in _ Hp) in Hin. apply in_seq in Hin. lia.
Qed.

(** The indexer before it is reversed back: position [i] of the
    reversed values is position [n - 1 - i] of the column. *)
Lemma nargsort_desc_eq (items : list Z) :
  nargsort_desc argsort items
  = rev (map (fun i => (List.length items - S i)%nat)
             (argsort (rev items))).
Proof.
  unfold nargsort_desc. f_equal.
  rewrite (take_in_range 0%nat).
  - apply map_ext_in. intros i Hi. apply argsort_range in Hi.
    rewrite length_rev in Hi.
    rewrite rev_nth by (rewrite length_seq; exact Hi).
    rewrite length_seq. rewrite seq_nth by lia. reflexivity.
  - intros i Hi. apply argsort_range in Hi.
    rewrite length_rev in *. rewrite length_seq. exact Hi.
Qed.

Lemma nargsort_desc_perm (items : list Z) :
  Permutation (nargsort_desc argsort items) (seq 0 (List.length items)).
Proof.
  unfold nargsort_desc. rewrite <- Permutation_rev.
  destruct (argsort_sorts (rev items)) as [Hp _].
  rewrite length_rev in Hp.
  rewrite (take_perm _ _ _ Hp).
  replace (seq 0 (List.length items))
    with (seq 0 (List.length (rev (seq 0 (List.length items))))) at 1
    by (rewrite length_rev, length_seq; reflexivity).
  rewrite take_seq. symmetry. apply Permutation_rev.
Qed.

Lemma sort_values_desc_perm {A} (col : A -> Z) (df : list A) :
  Permutation (sort_values_desc argsort col df) df.
Proof.
  unfold sort_values_desc.
  rewrite (take_perm _ _ _ (nargsort_desc_perm (map col df))).
  rewrite length_map, take_seq. reflexivity.
Qed.

Lemma sort_values_desc_sorted {A} (col : A -> Z) (df : list A) :
  StronglySorted Z.ge (map col (sort_values_desc argsort col df)).
Proof.
  unfold sort_values_desc. rewrite take_map.
  set (items := map col df).
  assert (Hrange : forall i, In i (nargsort_desc argsort items) ->
                             (i < List.length items)%nat).
  { intros i Hi.
    apply (Permutation_in _ (nargsort_desc_perm items)) in Hi.
    apply in_seq in Hi. lia. }
  rewrite (take_in_range 0 _ _ Hrange).
  rewrite nargsort_desc_eq, map_rev, map_map.
  replace (map (fun i => nth (List.length items - S i) items 0)
               (argsort (rev items)))
    with (map (fun i => nth i (rev items) 0) (argsort (rev items))).
  - apply (StronglySorted_impl (fun x y => y <= x)); [intros; lia|].
    apply (StronglySorted_rev Z.le).
    apply (proj2 (argsort_sorts (rev items))).
  - apply map_ext_in. intros i Hi. apply argsort_range in Hi.
    rewrite length_rev in Hi. apply rev_nth. exact Hi.
Qed.

End SortValuesFacts.

(** Both insertion sorts meet the contract. *)
Lemma goes_first_true (b : bool) (x y : Z) :
  goes_first b x y = true -> x <= y.
Proof. destruct b; simpl; [rewrite Z.leb_le | rewrite Z.ltb_lt]; lia. Qed.

Lemma goes_first_false (b : bool) (x y : Z) :
  goes_first b x y = false -> y <= x.
Proof. destruct b; simpl; [rewrite Z.leb_gt | rewrite Z.ltb_ge]; lia. Qed.

Lemma insert_pos_perm (b : bool) (a : list Z) (i : nat) (l : list nat) :
  Permutation (insert_pos b a i l) (i :: l).
Proof.
  induction l as [|j l IH]; simpl; [reflexivity|].
  destruct (goes_first b (nth i a 0) (nth j a 0)); [reflexivity|].
  rewrite IH. apply perm_swap.
Qed.

Lemma insert_pos_sorted (b : bool) (a : list Z) (i : nat) (l : list nat) :
  StronglySorted (fun x y => nth x a 0 <= nth y a 0) l ->
  StronglySorted (fun x y => nth x a 0 <= nth y a 0) (insert_pos b a i l).
Proof.
  induction 1 as [|j l Hs IH Hj]; simpl.
  - constructor; constructor.
  - destruct (goes_first b (nth i a 0) (nth j a 0)) eqn:Hg.
    + apply goes_first_true in Hg.
      constructor; [constructor; auto|].
      constructor; [exact Hg|].
      eapply Forall_impl; [|exact Hj]. simpl. intros; lia.
    + apply goes_first_false in Hg.
      constructor; [exact IH|].
      eapply Permutation_Forall; [symmetry; apply insert_pos_perm|].
      constructor; auto.
Qed.

Lemma insertion_argsort_sorts (b : bool) : sorts (insertion_argsort b).
Proof.
  intros a. unfold insertion_argsort.
  generalize (seq 0 (List.length a)) as p.
  induction p as [|i p [IHp IHs]]; simpl.
  - split; constructor.
  - split.
    + rewrite insert_pos_perm. constructor. exact IHp.
    + apply StronglySorted_map. apply insert_pos_sorted.
      clear IHp. revert IHs.
      generalize (fold_right (insert_pos b a) [] p) as l.
      induction l as [|x l IH]; simpl; intros Hs; [constructor|].
      inversion Hs as [|? ? Hs' Hx]; subst.
      constructor; [auto|].
      rewrite Forall_map in Hx. exact Hx.
Qed.

(* ================================================================= *)
(** ** The filter engine *)

Lemma isin_In (values : list string) (cell : option string) :
  isin values cell = true <-> exists c, cell = Some c /\ In c values.
Proof.
  unfold isin. destruct cell as [s|].
  - rewrite existsb_exists. split.
    + intros (x & Hx & He). apply String.eqb_eq in He. subst x.
      exists s; auto.
    + intros (c & [= <-] & Hc). exists s. split; [exact Hc|].
      apply String.eqb_refl.
  - split; [discriminate | intros (c & Hc & _); discriminate].
Qed.

(** C1.  With a non-empty product selection, a row is in the filtered
    view exactly when it passes the date and contact-channel filters and
    its contact-channel value ('Toma de contacto') is one of the selected
    products; the column 'Producto' is not consulted. *)
Theorem product_filter_reads_contact_channel
    (df : list Row) (f : Filters) (r : Row) :
  producto_seleccionado f <> [] ->
  (In r (df_filtered df f) <->
   In r (df_filtered df (mkFilters (fecha_inicio f) (fecha_fin f)
                                   (toma_seleccionada f) [])) /\
   exists c, Toma_de_contacto r = Some c /\ In c (producto_seleccionado f)).
Proof.
  intros Hsel. unfold df_filtered; simpl.
  destruct (producto_seleccionado f) as [|p ps] eqn:Hp; [contradiction|].
  simpl. unfold filter_producto. rewrite filter_In, isin_In. reflexivity.
Qed.

Lemma product_filter_reads_contact_channel_witness :
  Sample.producto_web.(producto_seleccionado) <> [] /\
  (In Sample.web_open
      (df_filtered Sample.df Sample.producto_web) <->
   In Sample.web_open
      (df_filtered Sample.df
         (mkFilters (fecha_inicio Sample.producto_web)
                    (fecha_fin Sample.producto_web)
                    (toma_seleccionada Sample.producto_web) [])) /\
   exists c,
     Toma_de_contacto Sample.web_open
       = Some c /\
     In c (producto_seleccionado Sample.producto_web)).
Proof.
  split.
  - simpl. discriminate.
  - apply (product_filter_reads_contact_channel Sample.df Sample.producto_web).
    simpl. discriminate.
Defined.

(** Selecting the product ["Web"] keeps the leads that came through the
    channel ["Web"], sold or not, and drops the others. *)
Example product_selection_on_sample :
  map Toma_de_contacto (df_filtered Sample.df Sample.producto_web)
  = [Some "Web"; Some "Web"]%string /\
  map Producto (df_filtered Sample.df Sample.producto_web)
  = [Some "A"; None]%string.
Proof. split; reflexivity. Qed.

(* ================================================================= *)
(** ** The cleaner *)

Example load_data_sample : load_data (Csv Sample.ventas) = Some Sample.df.
Proof. vm_compute. reflexivity. Qed.

Lemma load_data_raises (raw : list RawRow) (r : RawRow) (s : string) :
  In r raw ->
  contacto_notna r = true -> contacto_not_blank r = true ->
  raw_creacion r = Some s ->
  is_nat_string s = false -> Strptime.creacion s = None ->
  load_data (Csv raw) = None.
Proof.
  intros Hin Hna Hbl Hs Hn Hp. unfold load_data, load_data_try.
  destruct (columna_de_texto raw); [|reflexivity].
  rewrite (convert_dates_raises _ r s); auto.
  apply filter_In. split; [|exact Hbl].
  apply filter_In. split; auto.
Qed.

(** C2, as the code has it.  A row with a non-blank contact channel whose
    creation cell is a string that is not one of pandas' NaT strings and
    does not parse under [%d/%m/%Y %H:%M] makes [load_data] return no
    table at all, and [main] stops there, whatever the other rows are
    (channel and cell of ASCII text). *)
Theorem creation_parse_failure_stops_the_run
    (argsort : list Z -> list nat) (raw : list RawRow) (f : Filters)
    (r : RawRow) (canal s : string) :
  In r raw ->
  raw_contacto r = Some canal -> ascii_text canal = true ->
  contacto_not_blank r = true ->
  raw_creacion r = Some s -> ascii_text s = true ->
  is_nat_string s = false -> Strptime.creacion s = None ->
  load_data (Csv raw) = None /\ main argsort (Csv raw) f = Stopped.
Proof.
  intros Hin Hcanal _ Hbl Hs _ Hn Hp.
  assert (Hl : load_data (Csv raw) = None).
  { apply (load_data_raises raw r s); auto.
    unfold contacto_notna. rewrite Hcanal. reflexivity. }
  split; [exact Hl|]. unfold main. rewrite Hl. reflexivity.
Qed.

Lemma creation_parse_failure_stops_the_run_witness :
  load_data (Csv Sample.ventas_iso) = None /\
  main (insertion_argsort true) (Csv Sample.ventas_iso) Sample.todos = Stopped.
Proof.
  apply (creation_parse_failure_stops_the_run (insertion_argsort true)
           Sample.ventas_iso Sample.todos
           Sample.fila_iso "Web" Sample.celda_iso).
  - unfold Sample.ventas_iso. apply in_or_app. right. left. reflexivity.
  - reflexivity.
  - reflexivity.
  - reflexivity.
  - reflexivity.
  - reflexivity.
  - reflexivity.
  - vm_compute. reflexivity.
Defined.

(** C2, as the claim has it, fails: the six rows of [Sample.ventas] load
    to three cleaned rows, but with one more row whose creation cell does
    not parse nothing is returned and the run stops. *)
Lemma creation_parse_failure_counterexample :
  Strptime.creacion Sample.celda_iso = None /\
  load_data (Csv Sample.ventas) = Some Sample.df /\
  load_data (Csv Sample.ventas_iso) = None /\
  main (insertion_argsort true) (Csv Sample.ventas_iso) Sample.todos = Stopped.
Proof. repeat split; vm_compute; reflexivity. Qed.

(** A missing creation cell, in contrast, is a per-row exclusion: it
    becomes NaT and fails the year filter. *)
Example missing_creation_is_dropped :
  load_data (Csv [mkRaw (Some "Tel") None None (Some "B")]%string) = Some [].
Proof. reflexivity. Qed.

(** So is a creation cell that holds one of the NaT strings. *)
Example nat_creation_is_dropped :
  load_data (Csv [mkRaw (Some "Tel") (Some "NaT") None (Some "B")]%string)
  = Some [].
Proof. reflexivity. Qed.

(** C6.  Every row that [load_data] returns has a creation time, and its
    year lies in 2018..2021: rows of other years are not in the table. *)
Theorem creation_year_in_range (src : CsvSource) (df : list Row) (r : Row) :
  load_data src = Some df -> In r df ->
  exists ts, Fecha_de_Creacion r = Some ts /\
             2018 <= year ts <= 2021 /\
             Anio_Creacion r = Some (year ts).
Proof.
  intros Hl Hr.
  pose proof (load_data_canonical _ _ Hl) as Hall.
  rewrite Forall_forall in Hall. destruct (Hall r Hr) as [_ (ts & Hts & Hy) Ha _ _].
  exists ts. rewrite Ha, Hts. auto.
Qed.

Lemma creation_year_in_range_witness :
  exists ts,
    Fecha_de_Creacion
      Sample.tel_b = Some ts /\
    2018 <= year ts <= 2021 /\
    Anio_Creacion
      Sample.tel_b = Some (year ts).
Proof.
  apply (creation_year_in_range (Csv Sample.ventas) Sample.df).
  - vm_compute. reflexivity.
  - simpl. right. right. left. reflexivity.
Defined.

(* ================================================================= *)
(** ** The derived columns *)

(** C4.  In every row that [load_data] returns, 'Convertido' is true
    exactly when 'Producto' is present; it is computed from that cell
    alone, so two rows with the same product cell carry the same flag
    whatever their conversion timestamps. *)
Theorem converted_iff_product_present
    (src : CsvSource) (df : list Row) (r : Row) :
  load_data src = Some df -> In r df ->
  (Convertido r = true <-> Producto r <> None) /\
  (forall r', In r' df -> Producto r' = Producto r ->
              Convertido r' = Convertido r).
Proof.
  intros Hl Hr.
  pose proof (load_data_canonical _ _ Hl) as Hall.
  rewrite Forall_forall in Hall. split.
  - rewrite (can_convertido _ (Hall r Hr)).
    destruct (Producto r); simpl; split; congruence.
  - intros r' Hr' Heq.
    rewrite (can_convertido _ (Hall r Hr)), (can_convertido _ (Hall r' Hr')).
    rewrite Heq. reflexivity.
Qed.

Lemma converted_iff_product_present_witness :
  (Convertido Sample.web_open = true
   <-> Producto Sample.web_open
       <> None) /\
  (forall r', In r' Sample.df ->
     Producto r'
       = Producto Sample.web_open ->
     Convertido r'
       = Convertido Sample.web_open).
Proof.
  apply (converted_iff_product_present (Csv Sample.ventas) Sample.df).
  - vm_compute. reflexivity.
  - simpl. right. left. reflexivity.
Defined.

Lemma abs_floor_days (gap : Z) :
  Z.abs (timedelta_days gap)
  = if 0 <=? gap then gap / 1440 else (1439 - gap) / 1440.
Proof.
  unfold timedelta_days. destruct (Z.leb_spec 0 gap) as [Hg|Hg].
  - apply Z.abs_eq. apply Z.div_pos; lia.
  - Z.div_mod_to_equations. lia.
Qed.

Lemma abs_floor_days_spec (gap : Z) :
  Z.abs (timedelta_days gap) = Z.abs gap / 1440
  <-> 0 <= gap \/ gap mod 1440 = 0.
Proof.
  unfold timedelta_days. Z.div_mod_to_equations. lia.
Qed.

(** C5.  In every row that [load_data] returns, a present conversion
    time gives 'Dias_Hasta_Conversion' a number of days that is not
    negative: the whole days of the gap when the conversion time is not
    before the creation time, and the days of the gap rounded up when it
    is before.  It is the absolute value of the gap in whole days exactly
    when the conversion time is not before the creation time or the gap
    is a whole number of days.  An absent conversion time leaves it
    absent. *)
Theorem days_to_conversion_floor_then_abs
    (src : CsvSource) (df : list Row) (r : Row) :
  load_data src = Some df -> In r df ->
  (forall conversion, Fecha_de_Conversion r = Some conversion ->
     exists creacion d,
       Fecha_de_Creacion r = Some creacion /\
       Dias_Hasta_Conversion r = Some d /\
       0 <= d /\
       let gap := epoch_minutes conversion - epoch_minutes creacion in
       d = (if 0 <=? gap then gap / 1440 else (1439 - gap) / 1440) /\
       (d = spec_days_to_conversion conversion creacion
        <-> 0 <= gap \/ gap mod 1440 = 0)) /\
  (Fecha_de_Conversion r = None -> Dias_Hasta_Conversion r = None).
Proof.
  intros Hl Hr.
  pose proof (load_data_canonical _ _ Hl) as Hall.
  rewrite Forall_forall in Hall.
  destruct (Hall r Hr) as [_ (ts & Hts & _) _ _ Hd]. split.
  - intros c Hc. exists ts. eexists. split; [exact Hts|].
    rewrite Hd, Hc, Hts. cbn [dias_hasta_conversion].
    split; [reflexivity|]. split; [apply Z.abs_nonneg|].
    cbv zeta. split.
    + apply abs_floor_days.
    + unfold spec_days_to_conversion. apply abs_floor_days_spec.
  - intros Hc. rewrite Hd, Hc. reflexivity.
Qed.

Lemma days_to_conversion_floor_then_abs_witness :
  Dias_Hasta_Conversion Sample.tel_b = Some 0 /\
  exists creacion d,
    Fecha_de_Creacion Sample.web_a = Some creacion /\
    Dias_Hasta_Conversion Sample.web_a = Some d /\
    0 <= d /\
    d = (1439 - (epoch_minutes (mkTimestamp 2019 1 1 0 0)
                 - epoch_minutes creacion)) / 1440.
Proof.
  split; [reflexivity|].
  destruct (days_to_conversion_floor_then_abs (Csv Sample.ventas) Sample.df
              Sample.web_a) as [Hc _].
  - vm_compute. reflexivity.
  - simpl. left. reflexivity.
  - destruct (Hc (mkTimestamp 2019 1 1 0 0) eq_refl)
      as (creacion & d & Hcre & Hd & Hpos & Hval & _).
    exists creacion, d. split; [exact Hcre|]. split; [exact Hd|].
    split; [exact Hpos|].
    assert (E : creacion = mkTimestamp 2019 1 1 10 0)
      by (vm_compute in Hcre; congruence).
    rewrite Hval. rewrite E. vm_compute. reflexivity.
Defined.

(** A lead created on 01/01/2019 at 10:00 with a sale dated 01/01/2019
    lies ten hours, no whole day, from its conversion time; the code
    gives it one day. *)
Lemma days_to_conversion_counterexample :
  load_data (Csv Sample.ventas) = Some Sample.df /\
  In Sample.web_a Sample.df /\
  Fecha_de_Creacion Sample.web_a = Some (mkTimestamp 2019 1 1 10 0) /\
  Fecha_de_Conversion Sample.web_a = Some (mkTimestamp 2019 1 1 0 0) /\
  Z.abs (epoch_minutes (mkTimestamp 2019 1 1 0 0)
         - epoch_minutes (mkTimestamp 2019 1 1 10 0)) = 600 /\
  spec_days_to_conversion (mkTimestamp 2019 1 1 0 0)
    (mkTimestamp 2019 1 1 10 0) = 0 /\
  Dias_Hasta_Conversion Sample.web_a = Some 1 /\
  Dias_Hasta_Conversion Sample.web_a
  <> Some (spec_days_to_conversion (mkTimestamp 2019 1 1 0 0)
             (mkTimestamp 2019 1 1 10 0)).
Proof.
  repeat split; try reflexivity.
  - simpl. left. reflexivity.
  - vm_compute. discriminate.
Qed.

(** The whole days are those of the signed difference: a sale dated the
    day of the lead (midnight, ten hours before a 10:00 creation) counts
    one day, a sale dated the next day (fifteen hours after 09:00) counts
    none. *)
Example days_on_sample :
  map Dias_Hasta_Conversion Sample.df = [Some 1; None; Some 0].
Proof. reflexivity. Qed.

(* ================================================================= *)
(** ** The aggregator *)

Lemma take_In {A} (p : list nat) (l : list A) (x : A) :
  In x (take p l) -> In x l.
Proof.
  unfold take. rewrite in_flat_map. intros (i & _ & Hx).
  destruct (nth_error l i) as [y|] eqn:Hi; [|contradiction].
  destruct Hx as [<-|[]]. eapply nth_error_In; eauto.
Qed.

Lemma filter_perm {A} (p : A -> bool) (l l' : list A) :
  Permutation l l' -> Permutation (filter p l) (filter p l').
Proof.
  induction 1 as [|x l l' _ IH|x y l|l l' l'' _ IH1 _ IH2]; simpl.
  - constructor.
  - destruct (p x); [constructor|]; exact IH.
  - destruct (p x), (p y); try reflexivity. apply perm_swap.
  - etransitivity; eauto.
Qed.

Section AggFacts.
Context {K : Type} `{Key K}.

Lemma agg_row_perm (k : K) (g g' : list Row) :
  Permutation g g' -> agg_row k g = agg_row k g'.
Proof.
  intros Hp. unfold agg_row, count_contacto, sum_convertido.
  rewrite (Permutation_length (filter_perm Convertido _ _ Hp)).
  rewrite (Permutation_length
             (filter_perm (fun r => notna (Toma_de_contacto r)) _ _ Hp)).
  reflexivity.
Qed.

(** A group of cleaned rows with no counted row is empty, and the
    rate of an empty group is [0 / 0 * 100]. *)
Lemma agg_row_zero_count (k : K) (g : list Row) :
  Forall canonical g ->
  agg_count (agg_row k g) = 0 -> Tasa_Conversion (agg_row k g) = NaN.
Proof.
  intros Hc. simpl. unfold count_contacto.
  rewrite filter_all.
  - destruct g; [reflexivity | simpl; lia].
  - rewrite Forall_forall in Hc. intros r Hr. apply (can_contacto _ (Hc r Hr)).
Qed.

Lemma group_canonical (col : Row -> option K) (k : K) (v : list Row) :
  Forall canonical v -> Forall canonical (group col k v).
Proof.
  rewrite !Forall_forall. intros Hc r Hr. apply Hc.
  apply (group_incl _ _ _ _ Hr).
Qed.

Lemma groupby_agg_zero_count (col : Row -> option K) (v : list Row)
    (row : AggRow K) :
  Forall canonical v -> In row (groupby_agg col v) ->
  agg_count row = 0 -> Tasa_Conversion row = NaN.
Proof.
  intros Hc Hin. apply groupby_agg_In in Hin. destruct Hin as (k & _ & ->).
  apply agg_row_zero_count, group_canonical, Hc.
Qed.

End AggFacts.

(** C3, as the code has it.  On a filtered view of the loaded data, every
    row of the monthly, yearly, contact-channel, weekday and daily tables
    whose record count is 0 has the rate NaN; the headline rate of a view
    with no record is the number 0.  All of them are values: nothing is
    raised. *)
Theorem zero_count_rate
    (argsort : list Z -> list nat) (src : CsvSource) (df : list Row)
    (f : Filters) :
  load_data src = Some df ->
  let v := df_filtered df f in
  (forall row, In row (monthly_data v) ->
               agg_count row = 0 -> Tasa_Conversion row = NaN) /\
  (forall row, In row (yearly_data v) ->
               agg_count row = 0 -> Tasa_Conversion row = NaN) /\
  (forall row, In row (contacto_data argsort v) ->
               agg_count row = 0 -> Tasa_Conversion row = NaN) /\
  (forall row, In row (dia_semana_data v) ->
               agg_count row = 0 -> Tasa_Conversion row = NaN) /\
  (forall row, In row (daily_data v) ->
               agg_count row = 0 -> Tasa_Conversion row = NaN) /\
  (total_registros v = 0 -> tasa_conversion v = Fin 0).
Proof.
  intros Hl v.
  assert (Hc : Forall canonical v)
    by (apply df_filtered_canonical, (load_data_canonical _ _ Hl)).
  repeat split.
  - intros row. apply groupby_agg_zero_count, Hc.
  - intros row. apply groupby_agg_zero_count, Hc.
  - intros row Hin. apply take_In in Hin. revert Hin.
    apply groupby_agg_zero_count, Hc.
  - intros row Hin. unfold dia_semana_data, groupby_categorical_agg in Hin.
    apply in_map_iff in Hin. destruct Hin as (k & <- & _).
    apply agg_row_zero_count, group_canonical, Hc.
  - intros row. apply groupby_agg_zero_count, Hc.
  - intros H0. unfold tasa_conversion. rewrite H0. reflexivity.
Qed.

Lemma zero_count_rate_witness :
  load_data (Csv Sample.ventas) = Some Sample.df /\
  total_registros (df_filtered Sample.df Sample.solo_2020) = 0 /\
  tasa_conversion (df_filtered Sample.df Sample.solo_2020) = Fin 0 /\
  Forall (fun row => Tasa_Conversion row = NaN)
         (dia_semana_data (df_filtered Sample.df Sample.solo_2020)).
Proof.
  assert (Hl : load_data (Csv Sample.ventas) = Some Sample.df)
    by (vm_compute; reflexivity).
  destruct (zero_count_rate (insertion_argsort true) (Csv Sample.ventas)
              Sample.df Sample.solo_2020 Hl)
    as (_ & _ & _ & Hw & _ & Hh).
  split; [exact Hl|]. split; [reflexivity|]. split.
  - apply Hh. reflexivity.
  - apply Forall_forall. intros row Hin. apply Hw; [exact Hin|].
    simpl in Hin.
    repeat (destruct Hin as [<-|Hin]; [reflexivity|]). contradiction.
Defined.

(** C3, as the claim has it, fails for the headline figure: on a view
    with no record the rate shown is the number 0, not an undefined
    value. *)
Lemma headline_rate_counterexample :
  load_data (Csv Sample.ventas) = Some Sample.df /\
  total_registros (df_filtered Sample.df Sample.solo_2020) = 0 /\
  tasa_conversion (df_filtered Sample.df Sample.solo_2020) = Fin 0 /\
  tasa_conversion (df_filtered Sample.df Sample.solo_2020) <> NaN.
Proof.
  split; [vm_compute; reflexivity|].
  split; [reflexivity|]. split; [reflexivity | discriminate].
Qed.

(** C7.  The rows of the weekday table stand in the order Monday,
    Tuesday, ..., Sunday, and the table does not depend on the order of
    the rows of the view. *)
Theorem weekday_rows_in_canonical_order (v : list Row) :
  map agg_key (dia_semana_data v)
  = ["Monday"; "Tuesday"; "Wednesday"; "Thursday"; "Friday"; "Saturday";
     "Sunday"]%string /\
  (forall v', Permutation v v' -> dia_semana_data v' = dia_semana_data v).
Proof.
  split.
  - reflexivity.
  - intros v' Hp. unfold dia_semana_data, groupby_categorical_agg.
    apply map_ext. intros k. apply agg_row_perm.
    unfold group. apply filter_perm. symmetry. exact Hp.
Qed.

Lemma weekday_rows_in_canonical_order_witness :
  Permutation Sample.df (rev Sample.df) /\
  dia_semana_data (rev Sample.df) = dia_semana_data Sample.df.
Proof.
  split.
  - apply Permutation_rev.
  - apply (proj2 (weekday_rows_in_canonical_order Sample.df)).
    apply Permutation_rev.
Defined.

(** C10.  Whatever the view, the empty one included, the weekday table
    has seven rows, one per weekday from Monday to Sunday; the row of a
    weekday on which no record of the view was created has count 0, 0
    sales and the rate NaN. *)
Theorem weekday_table_has_seven_rows (v : list Row) :
  List.length (dia_semana_data v) = 7%nat /\
  map agg_key (dia_semana_data v) = orden_dias /\
  (forall d, In d orden_dias ->
     (forall r, In r v -> Dia_Semana r <> Some d) ->
     In (mkAgg d 0 0 NaN) (dia_semana_data v)) /\
  dia_semana_data [] = map (fun d => mkAgg d 0 0 NaN) orden_dias.
Proof.
  repeat split.
  intros d Hd Hno. unfold dia_semana_data, groupby_categorical_agg.
  apply in_map_iff. exists d. split; [|exact Hd].
  replace (group Dia_Semana d v) with (@nil Row); [reflexivity|].
  symmetry. unfold group. apply filter_none. intros r Hr.
  unfold in_group. destruct (Dia_Semana r) as [k|] eqn:Hk; [|reflexivity].
  destruct (key_eqb k d) eqn:He; [|reflexivity].
  apply key_eqb_eq in He. subst k. exfalso. apply (Hno r Hr Hk).
Qed.

Lemma weekday_table_has_seven_rows_witness :
  List.length (dia_semana_data Sample.df) = 7%nat /\
  In (mkAgg "Sunday"%string 0 0 NaN) (dia_semana_data Sample.df).
Proof.
  destruct (weekday_table_has_seven_rows Sample.df) as (Hlen & _ & Hrow & _).
  split; [exact Hlen|].
  apply Hrow.
  - simpl. tauto.
  - intros r Hr. simpl in Hr.
    destruct Hr as [<-|[<-|[<-|[]]]]; vm_compute; discriminate.
Defined.

Lemma contacto_groups_counts (v : list Row) :
  Forall canonical v ->
  sum_Z (map agg_count (contacto_groups v)) = total_registros v.
Proof.
  intros Hc. unfold contacto_groups, groupby_agg, total_registros.
  rewrite map_map. simpl.
  rewrite (map_ext _ (fun k => Z.of_nat
                        (List.length (group Toma_de_contacto k v)))).
  - rewrite groups_cover. rewrite filter_all; [reflexivity|].
    rewrite Forall_forall in Hc. intros r Hr. apply (can_contacto _ (Hc r Hr)).
  - intros k. unfold count_contacto. rewrite filter_all; [reflexivity|].
    intros r Hr. apply group_incl in Hr. destruct Hr as [_ ->]. reflexivity.
Qed.

Lemma producto_groups_counts (v : list Row) :
  Forall canonical v ->
  sum_Z (map Cantidad_Ventas (producto_groups v)) = total_ventas v.
Proof.
  intros Hc. unfold producto_groups, total_ventas.
  rewrite map_map. simpl.
  rewrite (map_ext _ (fun k => Z.of_nat
                        (List.length (group Producto k (filter Convertido v))))).
  - rewrite groups_cover. rewrite filter_all; [reflexivity|].
    rewrite Forall_forall in Hc. intros r Hr.
    apply filter_In in Hr. destruct Hr as [Hr Hconv].
    rewrite <- (can_convertido _ (Hc r Hr)). exact Hconv.
  - intros k. unfold count_producto. rewrite filter_all; [reflexivity|].
    intros r Hr. apply group_incl in Hr. destruct Hr as [_ ->]. reflexivity.
Qed.

(** C8.  On a filtered view of the loaded data, the counts of the
    contact-channel table add up to the number of rows of the view, and
    the counts of the product table add up to the number of converted
    rows of the view. *)
Theorem group_counts_partition_the_view
    (argsort : list Z -> list nat) (src : CsvSource) (df : list Row)
    (f : Filters) :
  sorts argsort ->
  load_data src = Some df ->
  let v := df_filtered df f in
  sum_Z (map agg_count (contacto_data argsort v)) = total_registros v /\
  sum_Z (map Cantidad_Ventas (producto_data argsort v)) = total_ventas v /\
  total_registros v = Z.of_nat (List.length v) /\
  total_ventas v = Z.of_nat (List.length (filter Convertido v)).
Proof.
  intros Hs Hl v.
  assert (Hc : Forall canonical v)
    by (apply df_filtered_canonical, (load_data_canonical _ _ Hl)).
  repeat split.
  - unfold contacto_data.
    rewrite (sum_Z_perm _ _ (Permutation_map agg_count
               (sort_values_desc_perm argsort Hs agg_ventas
                  (contacto_groups v)))).
    apply contacto_groups_counts, Hc.
  - unfold producto_data.
    rewrite (sum_Z_perm _ _ (Permutation_map Cantidad_Ventas
               (sort_values_desc_perm argsort Hs Cantidad_Ventas
                  (producto_groups v)))).
    apply producto_groups_counts, Hc.
Qed.

Lemma group_counts_partition_the_view_witness :
  sorts (insertion_argsort true) /\
  load_data (Csv Sample.ventas) = Some Sample.df /\
  sum_Z (map agg_count
           (contacto_data (insertion_argsort true)
              (df_filtered Sample.df Sample.todos))) = 3 /\
  sum_Z (map Cantidad_Ventas
           (producto_data (insertion_argsort true)
              (df_filtered Sample.df Sample.todos))) = 2.
Proof.
  assert (Hl : load_data (Csv Sample.ventas) = Some Sample.df)
    by (vm_compute; reflexivity).
  destruct (group_counts_partition_the_view (insertion_argsort true)
              (Csv Sample.ventas) Sample.df Sample.todos
              (insertion_argsort_sorts true) Hl)
    as (Hcon & Hprod & _ & _).
  split; [apply insertion_argsort_sorts|]. split; [exact Hl|].
  split; [rewrite Hcon | rewrite Hprod]; reflexivity.
Defined.

(** Without the guarantees of [load_data] the partition would fail: a
    row without contact channel belongs to no group. *)
Example partition_needs_cleaned_rows :
  sum_Z (map agg_count
           (contacto_groups [derive (mkDated None None None None)])) = 0 /\
  total_registros [derive (mkDated None None None None)] = 1.
Proof. split; reflexivity. Qed.

(** C9, as the code has it.  With any sort that meets numpy's contract,
    the contact-channel table and the product table hold the rows of
    their groups, ordered by descending count of sales.  Which of two
    groups with equal sales comes first is not fixed. *)
Theorem tables_sorted_by_descending_sales
    (argsort : list Z -> list nat) (v : list Row) :
  sorts argsort ->
  (StronglySorted Z.ge (map agg_ventas (contacto_data argsort v)) /\
   Permutation (contacto_data argsort v) (contacto_groups v)) /\
  (StronglySorted Z.ge (map Cantidad_Ventas (producto_data argsort v)) /\
   Permutation (producto_data argsort v) (producto_groups v)).
Proof.
  intros Hs. unfold contacto_data, producto_data.
  repeat split;
    first [ apply sort_values_desc_sorted | apply sort_values_desc_perm ];
    exact Hs.
Qed.

Lemma tables_sorted_by_descending_sales_witness :
  sorts (insertion_argsort false) /\
  StronglySorted Z.ge
    (map agg_ventas
       (contacto_data (insertion_argsort false)
          (df_filtered Sample.df Sample.todos))) /\
  StronglySorted Z.ge
    (map Cantidad_Ventas
       (producto_data (insertion_argsort false)
          (df_filtered Sample.df Sample.todos))).
Proof.
  destruct (tables_sorted_by_descending_sales (insertion_argsort false)
              (df_filtered Sample.df Sample.todos)
              (insertion_argsort_sorts false))
    as ((Hc & _) & (Hp & _)).
  split; [apply insertion_argsort_sorts|]. split; assumption.
Defined.

Lemma precedes_nth_error {A} (l : list A) (i j : nat) (x y : A) :
  nth_error l i = Some x -> nth_error l j = Some y -> (i < j)%nat ->
  precedes x y l.
Proof.
  intros Hi Hj Hlt.
  destruct (nth_error_split l i Hi) as (l1 & r & -> & Hlen).
  rewrite nth_error_app2 in Hj by lia.
  replace (j - List.length l1)%nat with (S (j - i - 1)) in Hj by lia.
  simpl in Hj.
  destruct (nth_error_split r _ Hj) as (l2 & l3 & -> & _).
  exists l1, l2, l3. reflexivity.
Qed.

Lemma precedes_map {A B} (g : A -> B) (x y : A) (l : list A) :
  precedes x y l -> precedes (g x) (g y) (map g l).
Proof.
  intros (l1 & l2 & l3 & ->).
  exists (map g l1), (map g l2), (map g l3).
  rewrite map_app. simpl. rewrite map_app. reflexivity.
Qed.

Lemma precedesb_complete (x y : string) (l : list string) :
  precedes x y l -> precedesb x y l = true.
Proof.
  intros (l1 & l2 & l3 & ->).
  induction l1 as [|z l1 IH]; simpl.
  - rewrite String.eqb_refl, existsb_app. simpl.
    rewrite String.eqb_refl, orb_true_r. reflexivity.
  - rewrite IH. apply orb_true_r.
Qed.

(** C9, as the claim has it, fails on the order of ties.  The file
    [Sample.canales] has eighteen channels, C01 to C18 in group order,
    eight of them with one sale and ten with none.  numpy's quicksort
    runs through on their sales (no heapsort), and the table it gives is
    in descending order of sales but does not keep the tied channels in
    group order: C16 comes before C07, both with one sale. *)
Lemma tie_order_numpy_counterexample :
  load_data (Csv Sample.canales) = Some Sample.canales_df /\
  map agg_key
    (contacto_groups (df_filtered Sample.canales_df Sample.todos))
  = ["C01"; "C02"; "C03"; "C04"; "C05"; "C06"; "C07"; "C08"; "C09"; "C10";
     "C11"; "C12"; "C13"; "C14"; "C15"; "C16"; "C17"; "C18"]%string /\
  map agg_ventas
    (contacto_groups (df_filtered Sample.canales_df Sample.todos))
  = [0; 0; 1; 1; 0; 0; 1; 1; 0; 0; 1; 1; 0; 0; 1; 1; 0; 0] /\
  Numpy.aquicksort
    (rev (map agg_ventas
            (contacto_groups (df_filtered Sample.canales_df Sample.todos))))
  <> None /\
  StronglySorted Z.ge
    (map agg_ventas
       (contacto_data Numpy.argsort
          (df_filtered Sample.canales_df Sample.todos))) /\
  ~ ties_keep_order agg_ventas
      (contacto_groups (df_filtered Sample.canales_df Sample.todos))
      (contacto_data Numpy.argsort
         (df_filtered Sample.canales_df Sample.todos)).
Proof.
  split; [vm_compute; reflexivity|].
  split; [vm_compute; reflexivity|].
  split; [vm_compute; reflexivity|].
  split; [vm_compute; discriminate|].
  set (groups := contacto_groups (df_filtered Sample.canales_df Sample.todos)).
  set (table := contacto_data Numpy.argsort
                  (df_filtered Sample.canales_df Sample.todos)).
  assert (Et : table
               = take [2; 3; 15; 6; 7; 14; 10; 11; 0; 12; 16; 13; 9; 1; 8;
                       5; 4; 17]%nat groups)
    by (vm_compute; reflexivity).
  split.
  - assert (Em : map agg_ventas table
                 = [1; 1; 1; 1; 1; 1; 1; 1; 0; 0; 0; 0; 0; 0; 0; 0; 0; 0])
      by (rewrite Et; vm_compute; reflexivity).
    rewrite Em.
    repeat first [ apply SSorted_nil | apply SSorted_cons
                 | apply Forall_nil | apply Forall_cons | lia ].
  - intros Hk.
    pose (d := mkAgg ""%string 0 0 NaN).
    assert (H : precedes (nth 15 groups d) (nth 6 groups d) groups).
    { apply Hk.
      - apply (precedes_nth_error table 2 3);
          [rewrite Et; vm_compute; reflexivity
          |rewrite Et; vm_compute; reflexivity | lia].
      - vm_compute. reflexivity. }
    apply (precedes_map agg_key) in H.
    apply precedesb_complete in H.
    vm_compute in H. discriminate H.
Qed.

(** On the small sample, with two tied channels and two tied products,
    numpy's quicksort is its insertion sort and the tables come out in
    group order. *)
Example numpy_sort_on_sample :
  map agg_key
    (contacto_data Numpy.argsort
       (df_filtered Sample.df Sample.todos)) = ["Tel"; "Web"]%string /\
  map prod_key
    (producto_data Numpy.argsort
       (df_filtered Sample.df Sample.todos)) = ["A"; "B"]%string.
Proof. split; reflexivity. Qed.

(** A stable sort meets the same contract and keeps the ties of the
    sample in group order: the order of ties is the sort's choice. *)
Example stable_sort_on_sample :
  map agg_key
    (contacto_data (insertion_argsort true)
       (df_filtered Sample.df Sample.todos)) = ["Tel"; "Web"]%string /\
  map prod_key
    (producto_data (insertion_argsort true)
       (df_filtered Sample.df Sample.todos)) = ["A"; "B"]%string.
Proof. split; reflexivity. Qed.

(* ================================================================= *)
(** ** More on the cleaner ([load_data]) *)





(** A frame with rows and no channel at all is another matter: its
    channel column is float64 and line 30 raises. *)
Example frame_without_any_channel :
  load_data (Csv [mkRaw None (Some "01/01/2019 10:00"%string) None None])
  = None /\
  load_data (Csv []) = Some [].
Proof. split; reflexivity. Qed.

Lemma filter_map_comm {A B} (g : A -> B) (p : B -> bool) (l : list A) :
  filter p (map g l) = map g (filter (fun x => p (g x)) l).
Proof.
  induction l as [|x l IH]; simpl; [reflexivity|].
  destruct (p (g x)); simpl; rewrite IH; reflexivity.
Qed.

Lemma convert_dates_with_conversion (c : RawRow -> option string)
    (l : list RawRow) (out : list DatedRow) :
  convert_dates l = Ok out ->
  exists out',
    convert_dates (map (with_conversion c) l) = Ok out' /\
    Forall2 same_but_conversion out out' /\
    Forall (fun d' => exists r, dt_conversion d'
              = to_datetime_coerce Strptime.conversion (c r)) out'.
Proof.
  revert out; induction l as [|r l IH]; simpl; intros out Hc.
  - injection Hc as <-. exists []. repeat constructor.
  - destruct (to_datetime_raise Strptime.creacion (raw_creacion r))
      as [cr|e]; [|discriminate].
    destruct (convert_dates l) as [rest|e]; [|discriminate].
    injection Hc as <-.
    destruct (IH rest eq_refl) as (rest' & -> & HF & HC).
    eexists. split; [reflexivity|]. split.
    + constructor; [|exact HF]. repeat split.
    + constructor; [|exact HC]. exists r. reflexivity.
Qed.

Lemma filter_year_same (out out' : list DatedRow) :
  Forall2 same_but_conversion out out' ->
  Forall2 same_but_conversion
    (filter year_in_range out) (filter year_in_range out').
Proof.
  induction 1 as [|d d' l l' Hd _ IH]; simpl; [constructor|].
  assert (Hy : year_in_range d' = year_in_range d)
    by (unfold year_in_range; rewrite (proj1 (proj2 Hd)); reflexivity).
  rewrite Hy. destruct (year_in_range d); [constructor|]; assumption.
Qed.

Lemma derive_same (out out' : list DatedRow) :
  Forall2 same_but_conversion out out' ->
  map sin_conversion (map derive out') = map sin_conversion (map derive out).
Proof.
  induction 1 as [|d d' l l' (Hc & Hf & Hp) _ IH]; simpl; [reflexivity|].
  rewrite IH. unfold sin_conversion at 1 3. simpl.
  rewrite Hc, Hf, Hp. reflexivity.
Qed.

Lemma columna_de_texto_map (g : RawRow -> RawRow) (l : list RawRow) :
  (forall r, contacto_notna (g r) = contacto_notna r) ->
  columna_de_texto (map g l) = columna_de_texto l.
Proof.
  intros Hg.
  assert (E : forall m, existsb contacto_notna (map g m)
                        = existsb contacto_notna m).
  { induction m as [|y m IH]; simpl; [reflexivity|].
    rewrite Hg, IH. reflexivity. }
  destruct l as [|x l]; [reflexivity|].
  exact (E (x :: l)).
Qed.

(** X3.  Conversion cells that do not parse under [%d/%m/%Y] never make
    the load fail nor drop a row: if the frame loads, the frame with such
    ASCII text (or nothing) in its conversion column loads too, to the
    same rows with the same channel, creation time, product and
    converted flag, with conversion time and days to conversion
    missing. *)
Theorem unparsed_conversion_never_excludes
    (raw : list RawRow) (c : RawRow -> option string) (df : list Row) :
  load_data (Csv raw) = Some df ->
  (forall r s, c r = Some s ->
               ascii_text s = true /\ Strptime.conversion s = None) ->
  exists df',
    load_data (Csv (map (with_conversion c) raw)) = Some df' /\
    map sin_conversion df' = map sin_conversion df /\
    Forall (fun r' => Fecha_de_Conversion r' = None /\
                      Dias_Hasta_Conversion r' = None) df'.
Proof.
  intros Hl Hnone.
  destruct (load_data_inv_full _ _ Hl) as (Ht & dated & Hc & _ & ->).
  destruct (convert_dates_with_conversion c _ _ Hc) as (out' & Hc' & HF & HC).
  assert (Hconv : Forall (fun d' => dt_conversion d' = None) out').
  { eapply Forall_impl; [|exact HC]. intros d' (r & ->).
    destruct (c r) as [s|] eqn:Hs; [|reflexivity].
    simpl. apply (Hnone r s Hs). }
  exists (map derive (filter year_in_range out')).
  split; [|split].
  - apply load_data_intro.
    + rewrite columna_de_texto_map; [exact Ht | reflexivity].
    + rewrite !filter_map_comm. simpl.
      change (fun x => contacto_notna (with_conversion c x))
        with contacto_notna.
      change (fun x => contacto_not_blank (with_conversion c x))
        with contacto_not_blank.
      exact Hc'.
    + apply forallb_forall. intros d' Hd'. apply filter_In in Hd'.
      rewrite Forall_forall in Hconv. unfold resta_en_rango.
      rewrite (Hconv d' (proj1 Hd')). reflexivity.
  - apply derive_same, filter_year_same, HF.
  - apply Forall_forall. intros r' Hr'.
    apply in_map_iff in Hr'. destruct Hr' as (d' & <- & Hd').
    apply filter_In in Hd'. destruct Hd' as [Hd' _].
    rewrite Forall_forall in Hconv.
    simpl. rewrite (Hconv d' Hd'). split; reflexivity.
Qed.

Lemma unparsed_conversion_never_excludes_witness :
  exists df',
    load_data (Csv (map (with_conversion (fun _ => Some "pronto"%string))
                        Sample.ventas)) = Some df' /\
    map sin_conversion df' = map sin_conversion Sample.df /\
    Forall (fun r' => Fecha_de_Conversion r' = None /\
                      Dias_Hasta_Conversion r' = None) df'.
Proof.
  apply (unparsed_conversion_never_excludes Sample.ventas
           (fun _ => Some "pronto"%string) Sample.df).
  - vm_compute. reflexivity.
  - intros r s [= <-]. split; vm_compute; reflexivity.
Defined.

(** A conversion cell that does parse can make the load fail: a sale
    dated more than some 292 years before the lead overflows the
    subtraction of line 48. *)
Example far_conversion_overflows :
  load_data
    (Csv [mkRaw (Some "Web") (Some "01/01/2019 10:00")
            (Some "01/01/1700") (Some "A")]%string) = None /\
  load_data
    (Csv [mkRaw (Some "Web") (Some "01/01/2019 10:00")
            (Some "01/01/1800") (Some "A")]%string) <> None.
Proof. split; [vm_compute; reflexivity | vm_compute; discriminate]. Qed.

Lemma filter_filter {A} (p q : A -> bool) (l : list A) :
  filter p (filter q l) = filter (fun x => q x && p x) l.
Proof.
  induction l as [|x l IH]; simpl; [reflexivity|].
  destruct (q x); simpl; [destruct (p x)|]; rewrite IH; reflexivity.
Qed.

Lemma nat_string_does_not_parse (s : string) :
  is_nat_string s = true -> Strptime.creacion s = None.
Proof.
  unfold is_nat_string. simpl. rewrite !orb_true_iff, !String.eqb_eq.
  intros H.
  repeat (destruct H as [H|H]; [subst s; vm_compute; reflexivity|]).
  discriminate H.
Qed.

Lemma convert_dates_map (l : list RawRow) (out : list DatedRow) :
  convert_dates l = Ok out ->
  out = map (fun r =>
               mkDated (raw_contacto r)
                 (to_datetime_coerce Strptime.creacion (raw_creacion r))
                 (to_datetime_coerce Strptime.conversion (raw_conversion r))
                 (raw_producto r)) l.
Proof.
  revert out; induction l as [|r l IH]; simpl; intros out Hc.
  - injection Hc as <-. reflexivity.
  - unfold to_datetime_raise in Hc. unfold to_datetime_coerce at 1.
    destruct (raw_creacion r) as [s|].
    + destruct (is_nat_string s) eqn:Hn.
      * rewrite (nat_string_does_not_parse s Hn).
        destruct (convert_dates l) as [rest|e]; [|discriminate].
        injection Hc as <-. rewrite (IH rest eq_refl). reflexivity.
      * destruct (Strptime.creacion s) as [ts|]; [|discriminate].
        destruct (convert_dates l) as [rest|e]; [|discriminate].
        injection Hc as <-. rewrite (IH rest eq_refl). reflexivity.
    + destruct (convert_dates l) as [rest|e]; [|discriminate].
      injection Hc as <-. rewrite (IH rest eq_refl). reflexivity.
Qed.

Lemma load_data_map_limpia (raw : list RawRow) (df : list Row) :
  load_data (Csv raw) = Some df -> df = map limpia (filter se_conserva raw).
Proof.
  intros Hl.
  destruct (load_data_inv _ _ Hl) as (raw0 & dated & [= <-] & Hc & ->).
  rewrite (convert_dates_map _ _ Hc).
  rewrite filter_map_comm, map_map, !filter_filter.
  change (fun x : RawRow =>
            derive (mkDated (raw_contacto x)
                      (to_datetime_coerce Strptime.creacion (raw_creacion x))
                      (to_datetime_coerce Strptime.conversion
                         (raw_conversion x))
                      (raw_producto x))) with limpia.
  f_equal. apply filter_ext. intros r.
  unfold se_conserva, year_in_range. simpl.
  rewrite andb_assoc. reflexivity.
Qed.

(** X4.  When [load_data] returns a table for a frame of ASCII text, the
    table holds, in the order of the frame, exactly the rows whose
    contact channel is present and not blank and whose creation cell
    parses to a year from 2018 to 2021, each with its parsed dates and
    derived columns; so it never has more rows than the frame. *)
Theorem load_data_keeps_file_order (raw : list RawRow) (df : list Row) :
  forallb fila_ascii raw = true ->
  load_data (Csv raw) = Some df ->
  df = map limpia (filter se_conserva raw) /\
  (List.length df <= List.length raw)%nat.
Proof.
  intros _ Hl. pose proof (load_data_map_limpia _ _ Hl) as E.
  split; [exact E|].
  rewrite E, length_map. apply filter_length_le.
Qed.

Lemma load_data_keeps_file_order_witness :
  Sample.df = map limpia (filter se_conserva Sample.ventas) /\
  (List.length Sample.df <= List.length Sample.ventas)%nat.
Proof.
  apply (load_data_keeps_file_order Sample.ventas Sample.df).
  - vm_compute. reflexivity.
  - vm_compute. reflexivity.
Defined.

(* ================================================================= *)
(** ** More on the filters *)

Lemma df_filtered_filter (df : list Row) (f : Filters) :
  df_filtered df f = filter (pasa f) df.
Proof.
  unfold df_filtered, filter_toma, filter_producto, pasa.
  destruct (truthy (toma_seleccionada f)),
           (truthy (producto_seleccionado f)); simpl;
    rewrite ?filter_filter; apply filter_ext; intros r;
    rewrite ?andb_true_r, ?andb_assoc; reflexivity.
Qed.

(** X5.  The view is the data set filtered by one test: the creation
    date lies in the chosen range, and the contact channel is one of the
    selected channels when some are selected, and one of the selected
    products when some are selected.  Filtering the view again with the
    same selections changes nothing, and the view has at most as many
    rows as the data set (the two counts of the sidebar). *)
Theorem view_is_one_filter (df : list Row) (f : Filters) :
  df_filtered df f = filter (pasa f) df /\
  df_filtered (df_filtered df f) f = df_filtered df f /\
  snd (registros_sidebar df f) <= fst (registros_sidebar df f).
Proof.
  split; [apply df_filtered_filter|]. split.
  - rewrite !df_filtered_filter, filter_filter.
    apply filter_ext. intros r. destruct (pasa f r); reflexivity.
  - unfold registros_sidebar. simpl. rewrite df_filtered_filter.
    apply inj_le. apply filter_length_le.
Qed.

(** X6.  When none of the selected products is the contact channel of a
    row of the data set, the view is empty; the same holds for the
    selected channels. *)
Theorem selection_naming_no_channel_empties_view
    (df : list Row) (f : Filters) :
  (producto_seleccionado f <> [] /\
   forall p, In p (producto_seleccionado f) ->
             ~ In (Some p) (map Toma_de_contacto df)) \/
  (toma_seleccionada f <> [] /\
   forall c, In c (toma_seleccionada f) ->
             ~ In (Some c) (map Toma_de_contacto df)) ->
  df_filtered df f = [].
Proof.
  intros Hsel. rewrite df_filtered_filter. apply filter_none.
  intros r Hr. unfold pasa.
  assert (Hno : forall sel,
            (forall c, In c sel -> ~ In (Some c) (map Toma_de_contacto df)) ->
            isin sel (Toma_de_contacto r) = false).
  { intros sel Hs. destruct (isin sel (Toma_de_contacto r)) eqn:Hi;
      [|reflexivity].
    apply isin_In in Hi. destruct Hi as (c & Hc & Hin).
    exfalso. apply (Hs c Hin). rewrite <- Hc. apply in_map. exact Hr. }
  destruct Hsel as [[Hne Hs]|[Hne Hs]].
  - rewrite (Hno _ Hs).
    destruct (producto_seleccionado f); [contradiction|]. simpl.
    apply andb_false_r.
  - rewrite (Hno _ Hs).
    destruct (toma_seleccionada f); [contradiction|]. simpl.
    rewrite andb_false_r. reflexivity.
Qed.

Lemma selection_naming_no_channel_empties_view_witness :
  In "A"%string (productos Sample.df) /\
  df_filtered Sample.df
    (mkFilters (mkDate 2018 1 1) (mkDate 2021 12 31) [] ["A"%string]) = [].
Proof.
  split; [simpl; tauto|].
  apply selection_naming_no_channel_empties_view. left. split.
  - simpl. discriminate.
  - simpl. intros p [<-|[]] [H|[H|[H|[]]]]; discriminate H.
Defined.

Lemma unique_In {K} `{Key K} (l : list K) (k : K) :
  In k (unique l) <-> In k l.
Proof. unfold unique. rewrite unique_from_In. simpl. tauto. Qed.

(** X7.  The options of the two multiselects: "Todos" followed by the
    distinct contact channels, respectively the distinct products, of the
    data set, each listed once.  On loaded data, a channel selection that
    holds every offered channel (with or without "Todos") keeps every
    row. *)
Theorem multiselect_options (src : CsvSource) (df : list Row) :
  load_data src = Some df ->
  (forall c, In c (tomas_contacto df) <->
             c = Some "Todos"%string \/ In c (map Toma_de_contacto df)) /\
  NoDup (tl (tomas_contacto df)) /\
  (forall p, In p (productos df) <->
             p = "Todos"%string \/ In (Some p) (map Producto df)) /\
  NoDup (tl (productos df)) /\
  (forall sel, (forall c, In (Some c) (tl (tomas_contacto df)) -> In c sel) ->
               filter_toma sel df = df).
Proof.
  intros Hl.
  split.
  { intros c. simpl. rewrite unique_In.
    split; (intros [H|H]; [left; symmetry; exact H | right; exact H]). }
  split; [simpl; apply unique_from_NoDup|].
  split.
  { intros p. simpl. rewrite unique_In, dropna_In.
    split; (intros [H|H]; [left; symmetry; exact H | right; exact H]). }
  split; [simpl; apply unique_from_NoDup|].
  intros sel Hall. unfold filter_toma. apply filter_all. intros r Hr.
    pose proof (load_data_canonical _ _ Hl) as Hcan.
    rewrite Forall_forall in Hcan.
    pose proof (can_contacto _ (Hcan r Hr)) as Hna.
    destruct (Toma_de_contacto r) as [c|] eqn:Hc; [|discriminate].
    apply isin_In. exists c. split; [reflexivity|].
  apply Hall. simpl. apply unique_In. rewrite <- Hc.
  apply in_map. exact Hr.
Qed.

Lemma multiselect_options_witness :
  tomas_contacto Sample.df
  = [Some "Todos"; Some "Web"; Some "Tel"]%string /\
  productos Sample.df = ["Todos"; "A"; "B"]%string /\
  filter_toma ["Tel"; "Web"]%string Sample.df = Sample.df.
Proof.
  destruct (multiselect_options (Csv Sample.ventas) Sample.df)
    as (_ & _ & _ & _ & Hall).
  - vm_compute. reflexivity.
  - split; [reflexivity|]. split; [reflexivity|].
    apply Hall. simpl.
    intros c [H|[H|[]]]; injection H as <-; simpl; tauto.
Defined.

(* ================================================================= *)
(** ** More on the aggregator *)

Lemma load_data_derived (src : CsvSource) (df : list Row) :
  load_data src = Some df ->
  Forall (fun r => exists d ts, r = derive d /\ dt_creacion d = Some ts) df.
Proof.
  intros Hl. destruct (load_data_inv _ _ Hl) as (raw & dated & _ & _ & ->).
  apply Forall_forall. intros r Hr. apply in_map_iff in Hr.
  destruct Hr as (d & <- & Hd). apply filter_In in Hd. destruct Hd as [_ Hy].
  unfold year_in_range in Hy. destruct (dt_creacion d) as [ts|] eqn:Hts;
    [|discriminate].
  exists d, ts. auto.
Qed.

Lemma day_name_in_orden_dias (ts : Timestamp) :
  existsb (String.eqb (day_name ts)) orden_dias = true.
Proof.
  unfold day_name.
  generalize ((days_from_civil (year ts) (month ts) (day ts) + 3) mod 7).
  intros n. destruct n as [|p|p]; try reflexivity.
  do 3 (destruct p as [p|p|]; try reflexivity).
Qed.

Lemma load_data_keyed (src : CsvSource) (df : list Row) :
  load_data src = Some df -> Forall keyed df.
Proof.
  intros Hl. eapply Forall_impl; [|apply (load_data_derived _ _ Hl)].
  intros r (d & ts & -> & Hts). unfold keyed, Fecha_Solo, keyed_in, Dia_Semana.
  cbn [derive Mes_Anio_Creacion Anio_Creacion Fecha_de_Creacion].
  rewrite Hts. cbn [option_map notna categorical].
  rewrite day_name_in_orden_dias.
  repeat split. apply (day_name_in_orden_dias ts).
Qed.

Lemma Forall_df_filtered (P : Row -> Prop) (df : list Row) (f : Filters) :
  Forall P df -> Forall P (df_filtered df f).
Proof.
  rewrite !Forall_forall. intros H r Hr. apply H.
  eapply df_filtered_incl; eauto.
Qed.

Section TableSums.
Context {K : Type} `{Key K}.

Lemma count_contacto_canonical (g : list Row) :
  Forall canonical g -> count_contacto g = Z.of_nat (List.length g).
Proof.
  intros Hc. unfold count_contacto. rewrite filter_all; [reflexivity|].
  rewrite Forall_forall in Hc. intros r Hr. apply (can_contacto _ (Hc r Hr)).
Qed.

Lemma sum_convertido_group (col : Row -> option K) (k : K) (v : list Row) :
  sum_convertido (group col k v)
  = Z.of_nat (List.length (group col k (filter Convertido v))).
Proof.
  unfold sum_convertido, group. rewrite !filter_filter.
  do 2 f_equal. apply filter_ext. intros r. apply andb_comm.
Qed.

(** Over any duplicate-free list of keys that covers the keys of the
    rows, the counts of the groups add up to the rows and their sales to
    the converted rows. *)
Lemma table_sums (col : Row -> option K) (ks : list K) (v : list Row) :
  Forall canonical v -> NoDup ks ->
  (forall r, In r v -> keyed_in col ks r = true) ->
  sum_Z (map agg_count (map (fun k => agg_row k (group col k v)) ks))
  = total_registros v /\
  sum_Z (map agg_ventas (map (fun k => agg_row k (group col k v)) ks))
  = total_ventas v.
Proof.
  intros Hc Hnd Hk. rewrite !map_map. simpl. split.
  - rewrite (map_ext _ (fun k => Z.of_nat (List.length (group col k v)))).
    + rewrite groups_partition by exact Hnd.
      rewrite filter_all by exact Hk. reflexivity.
    + intros k. apply count_contacto_canonical, group_canonical, Hc.
  - rewrite (map_ext _ (fun k => Z.of_nat
                          (List.length (group col k (filter Convertido v))))).
    + rewrite groups_partition by exact Hnd.
      rewrite filter_all; [reflexivity|].
      intros r Hr. apply Hk. apply filter_In in Hr. tauto.
    + intros k. apply sum_convertido_group.
Qed.

Lemma groupby_agg_sums (col : Row -> option K) (v : list Row) :
  Forall canonical v ->
  (forall r, In r v -> notna (col r) = true) ->
  sum_Z (map agg_count (groupby_agg col v)) = total_registros v /\
  sum_Z (map agg_ventas (groupby_agg col v)) = total_ventas v.
Proof.
  intros Hc Hk. unfold groupby_agg.
  apply table_sums; [exact Hc | apply group_keys_NoDup|].
  intros r Hr. specialize (Hk r Hr). unfold keyed_in.
  destruct (col r) as [k|] eqn:Hcol; [|discriminate].
  apply mem_In. apply group_keys_In. exists r; auto.
Qed.

End TableSums.

Lemma orden_dias_NoDup : NoDup orden_dias.
Proof.
  unfold orden_dias.
  repeat (constructor; [simpl; intros Hin;
                        repeat (destruct Hin as [Hin|Hin]; [discriminate|]);
                        exact Hin|]).
  constructor.
Qed.

(** X8.  On a filtered view of the loaded data, the record counts of the
    monthly, the yearly, the daily and the weekday table each add up to
    the number of rows of the view: every row falls in exactly one group
    of each table. *)
Theorem every_table_counts_every_row
    (src : CsvSource) (df : list Row) (f : Filters) :
  load_data src = Some df ->
  let v := df_filtered df f in
  sum_Z (map agg_count (monthly_data v)) = total_registros v /\
  sum_Z (map agg_count (yearly_data v)) = total_registros v /\
  sum_Z (map agg_count (daily_data v)) = total_registros v /\
  sum_Z (map agg_count (dia_semana_data v)) = total_registros v.
Proof.
  intros Hl v.
  assert (Hc : Forall canonical v)
    by (apply df_filtered_canonical, (load_data_canonical _ _ Hl)).
  assert (Hk : Forall keyed v)
    by (apply Forall_df_filtered, (load_data_keyed _ _ Hl)).
  rewrite Forall_forall in Hk.
  split; [|split; [|split]].
  - apply (groupby_agg_sums Mes_Anio_Creacion v Hc).
    intros r Hr. apply (Hk r Hr).
  - apply (groupby_agg_sums Anio_Creacion v Hc).
    intros r Hr. apply (Hk r Hr).
  - apply (groupby_agg_sums Fecha_Solo v Hc).
    intros r Hr. apply (Hk r Hr).
  - apply (table_sums Dia_Semana orden_dias v Hc orden_dias_NoDup).
    intros r Hr. apply (Hk r Hr).
Qed.

Lemma every_table_counts_every_row_witness :
  map agg_count (dia_semana_data (df_filtered Sample.df Sample.todos))
  = [0; 2; 1; 0; 0; 0; 0] /\
  sum_Z (map agg_count
           (dia_semana_data (df_filtered Sample.df Sample.todos)))
  = total_registros (df_filtered Sample.df Sample.todos).
Proof.
  split; [reflexivity|].
  apply (every_table_counts_every_row (Csv Sample.ventas) Sample.df
           Sample.todos).
  vm_compute. reflexivity.
Defined.

(** X9.  On a filtered view of the loaded data, the sales of the
    monthly, yearly, contact-channel, weekday and daily tables each add
    up to the total of sales of the headline. *)
Theorem every_table_counts_every_sale
    (argsort : list Z -> list nat) (src : CsvSource) (df : list Row)
    (f : Filters) :
  sorts argsort ->
  load_data src = Some df ->
  let v := df_filtered df f in
  sum_Z (map agg_ventas (monthly_data v)) = total_ventas v /\
  sum_Z (map agg_ventas (yearly_data v)) = total_ventas v /\
  sum_Z (map agg_ventas (contacto_data argsort v)) = total_ventas v /\
  sum_Z (map agg_ventas (dia_semana_data v)) = total_ventas v /\
  sum_Z (map agg_ventas (daily_data v)) = total_ventas v.
Proof.
  intros Hs Hl v.
  assert (Hc : Forall canonical v)
    by (apply df_filtered_canonical, (load_data_canonical _ _ Hl)).
  assert (Hk : Forall keyed v)
    by (apply Forall_df_filtered, (load_data_keyed _ _ Hl)).
  rewrite Forall_forall in Hk.
  split; [|split; [|split; [|split]]].
  - apply (groupby_agg_sums Mes_Anio_Creacion v Hc).
    intros r Hr. apply (Hk r Hr).
  - apply (groupby_agg_sums Anio_Creacion v Hc).
    intros r Hr. apply (Hk r Hr).
  - unfold contacto_data.
    rewrite (sum_Z_perm _ _ (Permutation_map agg_ventas
               (sort_values_desc_perm argsort Hs agg_ventas
                  (contacto_groups v)))).
    apply (groupby_agg_sums Toma_de_contacto v Hc).
    intros r Hr. rewrite Forall_forall in Hc.
    apply (can_contacto _ (Hc r Hr)).
  - apply (table_sums Dia_Semana orden_dias v Hc orden_dias_NoDup).
    intros r Hr. apply (Hk r Hr).
  - apply (groupby_agg_sums Fecha_Solo v Hc).
    intros r Hr. apply (Hk r Hr).
Qed.

Lemma every_table_counts_every_sale_witness :
  map agg_ventas (daily_data (df_filtered Sample.df Sample.todos))
  = [1; 0; 1] /\
  sum_Z (map agg_ventas (daily_data (df_filtered Sample.df Sample.todos)))
  = total_ventas (df_filtered Sample.df Sample.todos).
Proof.
  split; [reflexivity|].
  apply (every_table_counts_every_sale (insertion_argsort true)
           (Csv Sample.ventas) Sample.df Sample.todos
           (insertion_argsort_sorts true)).
  vm_compute. reflexivity.
Defined.

Lemma rate_percentage (a b : Z) :
  0 <= a <= b -> 0 < b -> percentage (rate a b).
Proof.
  intros Ha Hb. destruct b as [|p|p]; try lia.
  unfold rate, true_div, times_100. eexists. split; [reflexivity|].
  rewrite !Qred_correct. unfold Qle, Qmult. simpl.
  rewrite Pos.mul_1_r. split; lia.
Qed.

Lemma agg_row_coherent {K} (k : K) (g : list Row) :
  Forall canonical g -> coherent (agg_row k g).
Proof.
  intros Hc. unfold coherent. simpl.
  rewrite (count_contacto_canonical g Hc). unfold sum_convertido.
  pose proof (filter_length_le Convertido g) as Hle.
  split; [lia|]. split; [reflexivity|].
  intros Hpos. apply rate_percentage; lia.
Qed.

Lemma groupby_agg_coherent {K} `{Key K} (col : Row -> option K)
    (v : list Row) :
  Forall canonical v -> Forall coherent (groupby_agg col v).
Proof.
  intros Hc. apply Forall_forall. intros row Hin.
  apply groupby_agg_In in Hin. destruct Hin as (k & _ & ->).
  apply agg_row_coherent, group_canonical, Hc.
Qed.

(** X10.  On a filtered view of the loaded data, every row of the five
    rate tables has between 0 and its record count of sales, its rate is
    sales / count * 100, and where the count is positive the rate is a
    number between 0 and 100.  The headline has at most as many sales as
    records and its rate is always a number between 0 and 100. *)
Theorem rates_are_percentages
    (argsort : list Z -> list nat) (src : CsvSource) (df : list Row)
    (f : Filters) :
  load_data src = Some df ->
  let v := df_filtered df f in
  Forall coherent (monthly_data v) /\
  Forall coherent (yearly_data v) /\
  Forall coherent (contacto_data argsort v) /\
  Forall coherent (dia_semana_data v) /\
  Forall coherent (daily_data v) /\
  0 <= total_ventas v <= total_registros v /\
  percentage (tasa_conversion v).
Proof.
  intros Hl v.
  assert (Hc : Forall canonical v)
    by (apply df_filtered_canonical, (load_data_canonical _ _ Hl)).
  split; [apply groupby_agg_coherent, Hc|].
  split; [apply groupby_agg_coherent, Hc|].
  split.
  { apply Forall_forall. intros row Hin. apply take_In in Hin.
    revert row Hin. apply Forall_forall. apply groupby_agg_coherent, Hc. }
  split.
  { apply Forall_forall. intros row Hin.
    unfold dia_semana_data, groupby_categorical_agg in Hin.
    apply in_map_iff in Hin. destruct Hin as (k & <- & _).
    apply agg_row_coherent, group_canonical, Hc. }
  split; [apply groupby_agg_coherent, Hc|].
  unfold total_ventas, total_registros, tasa_conversion.
  pose proof (filter_length_le Convertido v) as Hle.
  split; [lia|].
  unfold total_ventas, total_registros.
  destruct (0 <? Z.of_nat (List.length v)) eqn:Hpos.
  - apply Z.ltb_lt in Hpos. apply rate_percentage; lia.
  - exists 0%Q. split; [reflexivity|]. split; discriminate.
Qed.

Lemma rates_are_percentages_witness :
  map Tasa_Conversion (yearly_data (df_filtered Sample.df Sample.todos))
  = [Fin (200 # 3)] /\
  Forall coherent (yearly_data (df_filtered Sample.df Sample.todos)) /\
  percentage (tasa_conversion (df_filtered Sample.df Sample.todos)).
Proof.
  split; [reflexivity|].
  destruct (rates_are_percentages (insertion_argsort true)
              (Csv Sample.ventas) Sample.df Sample.todos)
    as (_ & Hy & _ & _ & _ & _ & Hh).
  - vm_compute. reflexivity.
  - split; assumption.
Defined.

Lemma groupby_agg_keys {K} `{Key K} (col : Row -> option K) (v : list Row) :
  map agg_key (groupby_agg col v) = group_keys col v.
Proof.
  unfold groupby_agg. rewrite map_map. simpl. apply map_id.
Qed.

Lemma group_nonempty {K} `{Key K} (col : Row -> option K) (k : K)
    (v : list Row) :
  In k (group_keys col v) -> (1 <= List.length (group col k v))%nat.
Proof.
  intros Hk. apply group_keys_In in Hk. destruct Hk as (r & Hr & Hc).
  assert (Hin : In r (group col k v)).
  { unfold group. apply filter_In. split; [exact Hr|].
    unfold in_group. rewrite Hc. apply key_eqb_refl. }
  destruct (group col k v); [contradiction | simpl; lia].
Qed.

(** X11.  The contact-channel table has exactly one row for each contact
    channel that occurs in the view and the product table exactly one row
    for each product of a converted row of the view; on loaded data every
    such row counts at least one record. *)
Theorem one_row_per_channel_and_product
    (argsort : list Z -> list nat) (src : CsvSource) (df : list Row)
    (f : Filters) :
  sorts argsort ->
  load_data src = Some df ->
  let v := df_filtered df f in
  (NoDup (map agg_key (contacto_data argsort v)) /\
   (forall c, In c (map agg_key (contacto_data argsort v)) <->
              exists r, In r v /\ Toma_de_contacto r = Some c) /\
   Forall (fun row => 1 <= agg_count row) (contacto_data argsort v)) /\
  (NoDup (map prod_key (producto_data argsort v)) /\
   (forall p, In p (map prod_key (producto_data argsort v)) <->
              exists r, In r v /\ Convertido r = true /\ Producto r = Some p) /\
   Forall (fun row => 1 <= Cantidad_Ventas row) (producto_data argsort v)).
Proof.
  intros Hs Hl v.
  assert (Hc : Forall canonical v)
    by (apply df_filtered_canonical, (load_data_canonical _ _ Hl)).
  pose proof (sort_values_desc_perm argsort Hs agg_ventas (contacto_groups v))
    as Pc.
  pose proof (sort_values_desc_perm argsort Hs Cantidad_Ventas
                (producto_groups v)) as Pp.
  fold (contacto_data argsort v) in Pc. fold (producto_data argsort v) in Pp.
  assert (Kp : map prod_key (producto_groups v)
               = group_keys Producto (filter Convertido v)).
  { unfold producto_groups. rewrite map_map. simpl. apply map_id. }
  split; split; [| split | | split].
  - eapply Permutation_NoDup;
      [symmetry; apply Permutation_map, Pc|].
    unfold contacto_groups. rewrite groupby_agg_keys.
    apply group_keys_NoDup.
  - intros c. rewrite <- (group_keys_In Toma_de_contacto v c).
    unfold contacto_groups in Pc.
    rewrite <- (groupby_agg_keys Toma_de_contacto v).
    split; apply Permutation_in;
      [apply Permutation_map, Pc | symmetry; apply Permutation_map, Pc].
  - eapply Permutation_Forall; [symmetry; exact Pc|].
    apply Forall_forall. intros row Hin.
    apply groupby_agg_In in Hin. destruct Hin as (k & Hk & ->). simpl.
    rewrite (count_contacto_canonical _
               (group_canonical Toma_de_contacto k v Hc)).
    pose proof (group_nonempty _ _ _ Hk). lia.
  - eapply Permutation_NoDup;
      [symmetry; apply Permutation_map, Pp|].
    rewrite Kp. apply group_keys_NoDup.
  - intros p.
    transitivity (In p (group_keys Producto (filter Convertido v))).
    + rewrite <- Kp.
      split; apply Permutation_in;
        [apply Permutation_map, Pp | symmetry; apply Permutation_map, Pp].
    + rewrite group_keys_In. split.
      * intros (r & Hr & Hp). apply filter_In in Hr. exists r. tauto.
      * intros (r & Hr & Hcv & Hp). exists r. split; [|exact Hp].
        apply filter_In. auto.
  - eapply Permutation_Forall; [symmetry; exact Pp|].
    apply Forall_forall. intros row Hin. unfold producto_groups in Hin.
    apply in_map_iff in Hin. destruct Hin as (k & <- & Hk). simpl.
    unfold count_producto. rewrite filter_all.
    + pose proof (group_nonempty _ _ _ Hk). lia.
    + intros r Hr. apply group_incl in Hr. destruct Hr as [_ ->].
      reflexivity.
Qed.

Lemma one_row_per_channel_and_product_witness :
  map agg_key
    (contacto_data (insertion_argsort true)
       (df_filtered Sample.df Sample.todos)) = ["Tel"; "Web"]%string /\
  NoDup (map agg_key
           (contacto_data (insertion_argsort true)
              (df_filtered Sample.df Sample.todos))) /\
  NoDup (map prod_key
           (producto_data (insertion_argsort true)
              (df_filtered Sample.df Sample.todos))).
Proof.
  split; [reflexivity|].
  destruct (one_row_per_channel_and_product (insertion_argsort true)
              (Csv Sample.ventas) Sample.df Sample.todos
              (insertion_argsort_sorts true))
    as ((Hc & _) & (Hp & _)).
  - vm_compute. reflexivity.
  - split; assumption.
Defined.

Section SortedKeys.
Context {K : Type} `{Key K}.
Hypothesis leb_total : forall a b : K, key_leb a b = true \/ key_leb b a = true.
Hypothesis leb_trans : forall a b c : K,
  key_leb a b = true -> key_leb b c = true -> key_leb a c = true.

Lemma insert_key_sorted (k : K) (l : list K) :
  StronglySorted (fun a b => key_leb a b = true) l ->
  StronglySorted (fun a b => key_leb a b = true) (insert_key k l).
Proof.
  induction 1 as [|x l Hs IH Hx]; simpl.
  - constructor; constructor.
  - destruct (key_leb k x) eqn:Hk.
    + constructor; [constructor; assumption|].
      constructor; [exact Hk|].
      eapply Forall_impl; [|exact Hx]. intros y Hy. eapply leb_trans; eauto.
    + constructor; [exact IH|].
      eapply Permutation_Forall; [symmetry; apply insert_key_perm|].
      constructor; [|exact Hx].
      destruct (leb_total k x) as [Hkx|Hxk]; congruence.
Qed.

Lemma sort_keys_sorted (l : list K) :
  StronglySorted (fun a b => key_leb a b = true) (sort_keys l).
Proof.
  induction l as [|x l IH]; simpl; [constructor|].
  apply insert_key_sorted, IH.
Qed.

Lemma StronglySorted_NoDup_strict (R : K -> K -> Prop) (l : list K) :
  StronglySorted R l -> NoDup l ->
  StronglySorted (fun a b => R a b /\ a <> b) l.
Proof.
  induction 1 as [|x l Hs IH Hx]; intros Hnd; [constructor|].
  inversion Hnd as [|? ? Hnotin Hnd']; subst.
  constructor; [auto|].
  rewrite Forall_forall in *. intros y Hy. split; [auto|].
  intros ->. contradiction.
Qed.

Lemma group_keys_ascending (col : Row -> option K) (v : list Row) :
  StronglySorted (fun a b => key_leb a b = true /\ a <> b)
                 (group_keys col v).
Proof.
  apply StronglySorted_NoDup_strict; [|apply group_keys_NoDup].
  unfold group_keys. apply sort_keys_sorted.
Qed.

End SortedKeys.

Ltac bool_to_prop :=
  repeat (rewrite orb_true_iff || rewrite andb_true_iff
          || rewrite Z.ltb_lt || rewrite Z.eqb_eq || rewrite Z.leb_le).

(** X12.  Whatever the view, the yearly, monthly and daily tables list
    their groups in chronological order, each year, month and day
    once. *)
Theorem period_tables_are_chronological (v : list Row) :
  StronglySorted Z.lt (map agg_key (yearly_data v)) /\
  StronglySorted antes_periodo (map agg_key (monthly_data v)) /\
  StronglySorted antes_fecha (map agg_key (daily_data v)).
Proof.
  unfold yearly_data, monthly_data, daily_data.
  rewrite !groupby_agg_keys. split; [|split].
  - eapply StronglySorted_impl;
      [|apply (group_keys_ascending (K := Z))];
      cbv beta iota delta [key_leb Key_Z].
    + intros a b [Hle Hne]. apply Z.leb_le in Hle. lia.
    + intros a b. rewrite !Z.leb_le. lia.
    + intros a b c. rewrite !Z.leb_le. lia.
  - eapply StronglySorted_impl;
      [|apply (group_keys_ascending (K := Z * Z))];
      cbv beta iota delta [key_leb Key_period period_leb antes_periodo].
    + intros [a1 a2] [b1 b2]. cbn [fst snd].
      bool_to_prop.
      intros [Hle Hne].
      assert (a1 <> b1 \/ a2 <> b2)
        by (destruct (Z.eq_dec a1 b1); [right; congruence | left; assumption]).
      lia.
    + intros [a1 a2] [b1 b2]. cbn [fst snd].
      bool_to_prop.
      lia.
    + intros [a1 a2] [b1 b2] [c1 c2]. cbn [fst snd].
      bool_to_prop.
      lia.
  - eapply StronglySorted_impl;
      [|apply (group_keys_ascending (K := Date))];
      cbv beta iota delta [key_leb Key_Date date_le antes_fecha].
    + intros [a1 a2 a3] [b1 b2 b3]. cbn [d_year d_month d_day].
      bool_to_prop.
      intros [Hle Hne].
      assert (a1 <> b1 \/ a2 <> b2 \/ a3 <> b3).
      { destruct (Z.eq_dec a1 b1); [|left; assumption].
        destruct (Z.eq_dec a2 b2); [|right; left; assumption].
        right; right; congruence. }
      lia.
    + intros [a1 a2 a3] [b1 b2 b3]. cbn [d_year d_month d_day].
      bool_to_prop.
      lia.
    + intros [a1 a2 a3] [b1 b2 b3] [c1 c2 c3]. cbn [d_year d_month d_day].
      bool_to_prop.
      lia.
Qed.

Lemma firstn_skipn_sorted {A} (R : A -> A -> Prop) (n : nat) (l : list A)
    (x y : A) :
  StronglySorted R l -> In x (firstn n l) -> In y (skipn n l) -> R x y.
Proof.
  intros Hs. revert n. induction Hs as [|a l Hs IH Ha]; intros n.
  - rewrite firstn_nil. contradiction.
  - destruct n as [|n]; simpl; [contradiction|].
    intros [<-|Hx] Hy.
    + rewrite Forall_forall in Ha. apply Ha.
      rewrite <- (firstn_skipn n l). apply in_or_app. right. exact Hy.
    + apply (IH n); assumption.
Qed.

Lemma StronglySorted_of_map {A B} (R : B -> B -> Prop) (g : A -> B)
    (l : list A) :
  StronglySorted R (map g l) -> StronglySorted (fun x y => R (g x) (g y)) l.
Proof.
  induction l as [|x l IH]; simpl; intros Hs; [constructor|].
  inversion Hs as [|? ? Hs' Hx]; subst. constructor; [auto|].
  rewrite Forall_map in Hx. exact Hx.
Qed.

(** X13.  The first [n] rows of the product table ([head(10)] of the
    bar chart, [head(8)] of the pie) are its best sellers: each sold at
    least as much as every row left out; the first [n] rows of the
    contact-channel table likewise.  There are [n] of them unless the
    table is shorter. *)
Theorem head_holds_the_best_sellers
    (argsort : list Z -> list nat) (v : list Row) (n : nat) :
  sorts argsort ->
  (forall x y, In x (head n (producto_data argsort v)) ->
               In y (skipn n (producto_data argsort v)) ->
               Cantidad_Ventas x >= Cantidad_Ventas y) /\
  (forall x y, In x (head n (contacto_data argsort v)) ->
               In y (skipn n (contacto_data argsort v)) ->
               agg_ventas x >= agg_ventas y) /\
  List.length (head n (producto_data argsort v))
  = Nat.min n (List.length (producto_groups v)).
Proof.
  intros Hs. split; [|split].
  - intros x y.
    apply (firstn_skipn_sorted
             (fun a b => Cantidad_Ventas a >= Cantidad_Ventas b)).
    apply (StronglySorted_of_map Z.ge Cantidad_Ventas).
    apply (sort_values_desc_sorted argsort Hs).
  - intros x y.
    apply (firstn_skipn_sorted (fun a b => agg_ventas a >= agg_ventas b)).
    apply (StronglySorted_of_map Z.ge (@agg_ventas string)).
    apply (sort_values_desc_sorted argsort Hs).
  - unfold head. rewrite length_firstn. f_equal.
    apply Permutation_length.
    apply (sort_values_desc_perm argsort Hs).
Qed.

Lemma head_holds_the_best_sellers_witness :
  sorts (insertion_argsort true) /\
  List.length (head 1 (producto_data (insertion_argsort true) Sample.df))
  = 1%nat /\
  (forall x y,
     In x (head 1 (contacto_data (insertion_argsort true) Sample.df)) ->
     In y (skipn 1 (contacto_data (insertion_argsort true) Sample.df)) ->
     agg_ventas x >= agg_ventas y).
Proof.
  destruct (head_holds_the_best_sellers (insertion_argsort true)
              Sample.df 1 (insertion_argsort_sorts true))
    as (_ & Hc & Hlen).
  split; [apply insertion_argsort_sorts|].
  split; [rewrite Hlen; reflexivity | exact Hc].
Defined.

Lemma mean_presentes (l : list (option Z)) :
  mean l = match presentes l with
           | [] => NaN
           | _ :: _ => true_div (sum_Z (presentes l))
                                (Z.of_nat (List.length (presentes l)))
           end.
Proof. reflexivity. Qed.

Lemma presentes_nil_iff (l : list (option Z)) :
  presentes l = [] <-> existsb notna l = false.
Proof.
  induction l as [|[d|] l IH]; simpl.
  - tauto.
  - split; discriminate.
  - exact IH.
Qed.

Lemma presentes_In (l : list (option Z)) (d : Z) :
  In d (presentes l) <-> In (Some d) l.
Proof.
  unfold presentes. rewrite in_flat_map. split.
  - intros ([x|] & Hin & Hd); simpl in Hd; [|contradiction].
    destruct Hd as [<-|[]]. exact Hin.
  - intros Hin. exists (Some d). simpl. auto.
Qed.

Lemma sum_Z_nonneg (l : list Z) :
  Forall (fun d => 0 <= d) l -> 0 <= sum_Z l.
Proof. induction 1; simpl; lia. Qed.

(** X14.  The histogram of the days to conversion is drawn exactly when
    the mean of the fourth metric is not missing, that is when some
    converted row of the view has a conversion time; on loaded data the
    mean is then a number that is not negative. *)
Theorem mean_days_shown_with_histogram
    (src : CsvSource) (df : list Row) (f : Filters) :
  load_data src = Some df ->
  let v := df_filtered df f in
  hay_tiempos v = negb (tiempo_es_NA v) /\
  (hay_tiempos v = true <->
   exists r, In r v /\ Convertido r = true /\ Fecha_de_Conversion r <> None) /\
  (hay_tiempos v = true ->
   exists q, tiempo_promedio_conversion v = Fin q /\ (0 <= q)%Q).
Proof.
  intros Hl v.
  assert (Hc : Forall canonical v)
    by (apply df_filtered_canonical, (load_data_canonical _ _ Hl)).
  rewrite Forall_forall in Hc.
  assert (Hex : hay_tiempos v
                = existsb notna (map Dias_Hasta_Conversion (filter Convertido v))).
  { unfold hay_tiempos. generalize (filter Convertido v) as l.
    induction l as [|r l IH]; simpl; [reflexivity|]. rewrite IH. reflexivity. }
  assert (Hmean : forall l, Forall (fun d => 0 <= d) (presentes l) ->
            isna (mean l) = negb (existsb notna l) /\
            (existsb notna l = true ->
             exists q, mean l = Fin q /\ (0 <= q)%Q)).
  { intros l Hpos. rewrite mean_presentes.
    destruct (presentes l) as [|d ds] eqn:Hp.
    - apply presentes_nil_iff in Hp. rewrite Hp. split; [reflexivity|].
      discriminate.
    - assert (Hne : existsb notna l = true).
      { destruct (existsb notna l) eqn:He; [reflexivity|].
        apply presentes_nil_iff in He. congruence. }
      rewrite Hne.
      pose proof (sum_Z_nonneg _ Hpos) as Hsum.
      cbn [List.length]. rewrite Nat2Z.inj_succ.
      destruct (Z.succ (Z.of_nat (List.length ds))) as [|p|p] eqn:Hn; try lia.
      cbn [true_div isna negb].
      split; [reflexivity|]. intros _. eexists. split; [reflexivity|].
      rewrite Qred_correct. unfold Qle. cbn [Qnum Qden]. lia. }
  assert (Hpos : Forall (fun d => 0 <= d)
                   (presentes (map Dias_Hasta_Conversion (filter Convertido v)))).
  { apply Forall_forall. intros d Hd. apply presentes_In in Hd.
    apply in_map_iff in Hd. destruct Hd as (r & Hr & Hin).
    apply filter_In in Hin. destruct Hin as [Hin _].
    rewrite (can_dias _ (Hc r Hin)) in Hr. unfold dias_hasta_conversion in Hr.
    destruct (Fecha_de_Conversion r); [|discriminate].
    destruct (Fecha_de_Creacion r); [|discriminate].
    injection Hr as <-. apply Z.abs_nonneg. }
  destruct (Hmean _ Hpos) as [Hna Hq].
  split; [|split].
  - unfold tiempo_es_NA, tiempo_promedio_conversion.
    rewrite Hna, Hex, negb_involutive. reflexivity.
  - unfold hay_tiempos. rewrite existsb_exists. split.
    + intros (r & Hin & Hd). apply filter_In in Hin. destruct Hin as [Hin Hcv].
      exists r. split; [exact Hin|]. split; [exact Hcv|].
      rewrite (can_dias _ (Hc r Hin)) in Hd.
      destruct (Fecha_de_Conversion r); [discriminate | discriminate Hd].
    + intros (r & Hin & Hcv & Hconv). exists r. split.
      * apply filter_In. auto.
      * rewrite (can_dias _ (Hc r Hin)).
        destruct (Hc r Hin) as [_ (ts & Hts & _) _ _ _]. rewrite Hts.
        destruct (Fecha_de_Conversion r); [reflexivity | contradiction].
  - rewrite Hex. exact Hq.
Qed.

Lemma mean_days_shown_with_histogram_witness :
  hay_tiempos (df_filtered Sample.df Sample.todos) = true /\
  tiempo_promedio_conversion (df_filtered Sample.df Sample.todos)
  = Fin (1 # 2) /\
  exists q,
    tiempo_promedio_conversion (df_filtered Sample.df Sample.todos) = Fin q /\
    (0 <= q)%Q.
Proof.
  destruct (mean_days_shown_with_histogram (Csv Sample.ventas) Sample.df
              Sample.todos) as (_ & _ & Hq).
  - vm_compute. reflexivity.
  - split; [reflexivity|]. split; [reflexivity|]. apply Hq. reflexivity.
Defined.

(* ================================================================= *)
(** ** [main] from the file to the headline *)

(** X15.  [main] stops without figures when the file is missing, when
    the channel column holds no text, or when [load_data] fails; on a
    loaded table without rows an exception leaves [main]; on a loaded
    table with rows, from a frame of ASCII text, it renders, and the two
    headline totals count rows of the frame: the total of records counts
    the rows that the cleaner keeps and whose cleaned form passes the
    filters, the total of sales those of them that have a product. *)
Theorem main_counts_rows_of_the_file
    (argsort : list Z -> list nat) (raw : list RawRow) (f : Filters) :
  main argsort FileNotFound f = Stopped /\
  main argsort CsvCanalSinTexto f = Stopped /\
  (load_data (Csv raw) = None -> main argsort (Csv raw) f = Stopped) /\
  (load_data (Csv raw) = Some [] -> main argsort (Csv raw) f = Crashed) /\
  (forall df,
     forallb fila_ascii raw = true ->
     load_data (Csv raw) = Some df -> df <> [] ->
     exists d,
       main argsort (Csv raw) f = Rendered d /\
       dash_total_registros d
       = Z.of_nat (List.length
                     (filter (fun r => se_conserva r && pasa f (limpia r))
                             raw)) /\
       dash_total_ventas d
       = Z.of_nat (List.length
                     (filter (fun r => se_conserva r && pasa f (limpia r)
                                       && notna (raw_producto r))
                             raw))).
Proof.
  split; [reflexivity|]. split; [reflexivity|]. split; [|split].
  - intros Hl. unfold main. rewrite Hl. reflexivity.
  - intros Hl. unfold main. rewrite Hl. reflexivity.
  - intros df _ Hl Hne. unfold main. rewrite Hl.
    destruct df as [|r0 df0] eqn:Edf; [congruence|]. rewrite <- Edf in *.
    eexists. split; [reflexivity|].
    cbn [figures dash_total_registros dash_total_ventas].
    unfold total_registros, total_ventas.
    rewrite df_filtered_filter, (load_data_map_limpia _ _ Hl).
    rewrite !filter_map_comm, !length_map, !filter_filter.
    split; [reflexivity|].
    do 2 f_equal; try (apply filter_ext; intros r; reflexivity).
Qed.

Lemma main_counts_rows_of_the_file_witness :
  main (insertion_argsort true) (Csv []) Sample.producto_web = Crashed /\
  exists d,
    main (insertion_argsort true) (Csv Sample.ventas) Sample.producto_web
    = Rendered d /\
    dash_total_registros d = 2 /\ dash_total_ventas d = 1.
Proof.
  destruct (main_counts_rows_of_the_file (insertion_argsort true)
              Sample.ventas Sample.producto_web) as (_ & _ & _ & _ & Hr).
  split; [reflexivity|].
  destruct (Hr Sample.df) as (d & Hm & Ht & Hv).
  - vm_compute. reflexivity.
  - vm_compute. reflexivity.
  - discriminate.
  - exists d. split; [exact Hm|]. split.
    + rewrite Ht. vm_compute. reflexivity.
    + rewrite Hv. vm_compute. reflexivity.
Defined.

(* ================================================================= *)
(** ** What the two date formats let through *)

Lemma bind_inv {A B} (p : Strptime.parser A) (k : A -> Strptime.parser B)
    (s : list ascii) (r : B * list ascii) :
  Strptime.bind p k s = Some r ->
  exists a rest, p s = Some (a, rest) /\ k a rest = Some r.
Proof.
  unfold Strptime.bind. destruct (p s) as [[a rest]|]; [|discriminate].
  intros Hk. exists a, rest. auto.
Qed.

Lemma digit_range (s rest : list ascii) (v : Z) :
  Strptime.digit s = Some (v, rest) -> 0 <= v <= 9.
Proof.
  unfold Strptime.digit. destruct s as [|c s]; [discriminate|].
  destruct (Strptime.is_digit c) eqn:Hd; [|discriminate].
  intros [= <- _]. unfold Strptime.is_digit in Hd.
  apply andb_true_iff in Hd. destruct Hd as [Hlo Hhi].
  apply Nat.leb_le in Hlo, Hhi. unfold Strptime.digit_val. lia.
Qed.

Lemma digits12_range (s rest : list ascii) (v : Z) :
  Strptime.digits12 s = Some (v, rest) -> 0 <= v <= 99.
Proof.
  unfold Strptime.digits12.
  destruct (Strptime.digit s) as [[a r1]|] eqn:Ha; [|discriminate].
  apply digit_range in Ha.
  destruct (Strptime.digit r1) as [[b r2]|] eqn:Hb.
  - apply digit_range in Hb. intros Hv.
    assert (E : 10 * a + b = v) by congruence. lia.
  - intros [= <- _]. lia.
Qed.

Lemma guarded_range (lo hi : Z -> bool) (s rest : list ascii) (v : Z) :
  Strptime.bind Strptime.digits12
    (fun v => Strptime.bind (Strptime.guard (lo v && hi v))
                (fun _ => Strptime.ret v)) s = Some (v, rest) ->
  lo v = true /\ hi v = true /\ 0 <= v <= 99.
Proof.
  intros Hb. apply bind_inv in Hb. destruct Hb as (a & r1 & Hd & Hb).
  apply bind_inv in Hb. destruct Hb as ([] & r2 & Hg & Hr).
  unfold Strptime.ret in Hr. injection Hr as <- _.
  unfold Strptime.guard in Hg.
  destruct (lo a && hi a) eqn:Hc; [|discriminate].
  apply andb_true_iff in Hc. apply digits12_range in Hd. tauto.
Qed.

Lemma directive_d_range (s rest : list ascii) (v : Z) :
  Strptime.directive_d s = Some (v, rest) -> 1 <= v <= 31.
Proof.
  assert (Hgen : (Strptime.bind Strptime.digits12
            (fun v => Strptime.bind
                        (Strptime.guard ((1 <=? v) && (v <=? 31)))
                        (fun _ => Strptime.ret v))) s = Some (v, rest) ->
          1 <= v <= 31).
  { intros Hb.
    apply (guarded_range (fun v => 1 <=? v) (fun v => v <=? 31)) in Hb.
    destruct Hb as (Hlo & Hhi & _). apply Z.leb_le in Hlo, Hhi. lia. }
  unfold Strptime.directive_d.
  destruct s as [|c0 s']; [exact Hgen|].
  destruct c0 as [[|] [|] [|] [|] [|] [|] [|] [|]]; try exact Hgen.
  destruct s' as [|c1 s'']; [exact Hgen|].
  destruct (Strptime.is_digit c1 && negb (Strptime.digit_val c1 =? 0))
    eqn:Hc; [|discriminate].
  intros [= <- _]. apply andb_true_iff in Hc. destruct Hc as [Hd Hnz].
  assert (Hr : Strptime.digit (c1 :: s'') = Some (Strptime.digit_val c1, s''))
    by (unfold Strptime.digit; rewrite Hd; reflexivity).
  apply digit_range in Hr. apply negb_true_iff, Z.eqb_neq in Hnz. lia.
Qed.

Lemma directive_Y_range (s rest : list ascii) (v : Z) :
  Strptime.directive_Y s = Some (v, rest) -> 0 <= v <= 9999.
Proof.
  unfold Strptime.directive_Y. intros Hb.
  apply bind_inv in Hb. destruct Hb as (a & r1 & Ha & Hb).
  apply bind_inv in Hb. destruct Hb as (b & r2 & Hb' & Hb).
  apply bind_inv in Hb. destruct Hb as (c & r3 & Hc & Hb).
  apply bind_inv in Hb. destruct Hb as (d & r4 & Hd & Hr).
  unfold Strptime.ret in Hr.
  assert (E : 1000 * a + 100 * b + 10 * c + d = v) by congruence.
  apply digit_range in Ha, Hb', Hc, Hd. lia.
Qed.

Lemma check_valid (ts0 ts : Timestamp) :
  Strptime.check ts0 = Some ts ->
  ts = ts0 /\ day ts <= days_in_month (year ts) (month ts) /\
  in_bounds ts = true.
Proof.
  unfold Strptime.check.
  destruct ((day ts0 <=? days_in_month (year ts0) (month ts0))
            && in_bounds ts0) eqn:Hc; [|discriminate].
  intros [= <-]. apply andb_true_iff in Hc. destruct Hc as [Hd Hb].
  apply Z.leb_le in Hd. auto.
Qed.

Lemma creacion_valid (s : string) (ts : Timestamp) :
  Strptime.creacion s = Some ts -> valid_timestamp ts.
Proof.
  unfold Strptime.creacion, Strptime.run.
  destruct (Strptime.bind _ _ (list_ascii_of_string s))
    as [[ts0 [|c rest]]|] eqn:Hp; try discriminate.
  intros Hc. apply check_valid in Hc. destruct Hc as (-> & Hday & Hb).
  apply bind_inv in Hp. destruct Hp as (d & r1 & Hd & Hp).
  apply bind_inv in Hp. destruct Hp as (u1 & r2 & _ & Hp).
  apply bind_inv in Hp. destruct Hp as (m & r3 & Hm & Hp).
  apply bind_inv in Hp. destruct Hp as (u2 & r4 & _ & Hp).
  apply bind_inv in Hp. destruct Hp as (y & r5 & Hy & Hp).
  apply bind_inv in Hp. destruct Hp as (u3 & r6 & _ & Hp).
  apply bind_inv in Hp. destruct Hp as (h & r7 & Hh & Hp).
  apply bind_inv in Hp. destruct Hp as (u4 & r8 & _ & Hp).
  apply bind_inv in Hp. destruct Hp as (mi & r9 & Hmi & Hp).
  unfold Strptime.ret in Hp. injection Hp as <-.
  apply directive_d_range in Hd.
  apply (guarded_range (fun v => 1 <=? v) (fun v => v <=? 12)) in Hm.
  apply (guarded_range (fun _ => true) (fun v => v <=? 23)) in Hh.
  apply (guarded_range (fun _ => true) (fun v => v <=? 59)) in Hmi.
  destruct Hm as (Hm1 & Hm2 & _). destruct Hh as (_ & Hh2 & Hh0).
  destruct Hmi as (_ & Hmi2 & Hmi0).
  apply Z.leb_le in Hm1, Hm2, Hh2, Hmi2.
  unfold valid_timestamp. simpl in *. repeat split; try lia. exact Hb.
Qed.

Lemma conversion_valid (s : string) (ts : Timestamp) :
  Strptime.conversion s = Some ts ->
  valid_timestamp ts /\ hour ts = 0 /\ minute ts = 0.
Proof.
  unfold Strptime.conversion, Strptime.run.
  destruct (Strptime.bind _ _ (list_ascii_of_string s))
    as [[ts0 [|c rest]]|] eqn:Hp; try discriminate.
  intros Hc. apply check_valid in Hc. destruct Hc as (-> & Hday & Hb).
  apply bind_inv in Hp. destruct Hp as (d & r1 & Hd & Hp).
  apply bind_inv in Hp. destruct Hp as (u1 & r2 & _ & Hp).
  apply bind_inv in Hp. destruct Hp as (m & r3 & Hm & Hp).
  apply bind_inv in Hp. destruct Hp as (u2 & r4 & _ & Hp).
  apply bind_inv in Hp. destruct Hp as (y & r5 & Hy & Hp).
  unfold Strptime.ret in Hp. injection Hp as <-.
  apply directive_d_range in Hd.
  apply (guarded_range (fun v => 1 <=? v) (fun v => v <=? 12)) in Hm.
  destruct Hm as (Hm1 & Hm2 & _).
  apply Z.leb_le in Hm1, Hm2.
  unfold valid_timestamp. simpl in *. repeat split; try lia. exact Hb.
Qed.

Lemma load_data_row_origin (src : CsvSource) (df : list Row) (r : Row) :
  load_data src = Some df -> In r df ->
  exists x ts,
    r = limpia x /\
    to_datetime_coerce Strptime.creacion (raw_creacion x) = Some ts.
Proof.
  intros Hl Hr. destruct (load_data_inv _ _ Hl) as (raw & _ & -> & _ & _).
  rewrite (load_data_map_limpia _ _ Hl) in Hr.
  apply in_map_iff in Hr. destruct Hr as (x & <- & Hx).
  apply filter_In in Hx. destruct Hx as [_ Hk]. unfold se_conserva in Hk.
  apply andb_true_iff in Hk. destruct Hk as [_ Hk].
  destruct (to_datetime_coerce Strptime.creacion (raw_creacion x)) as [ts|]
    eqn:Hts; [|discriminate].
  exists x, ts. auto.
Qed.

Lemma coerce_creacion_valid (cell : option string) (ts : Timestamp) :
  to_datetime_coerce Strptime.creacion cell = Some ts -> valid_timestamp ts.
Proof.
  destruct cell as [s|]; simpl; [apply creacion_valid | discriminate].
Qed.

Lemma coerce_conversion_valid (cell : option string) (ts : Timestamp) :
  to_datetime_coerce Strptime.conversion cell = Some ts ->
  valid_timestamp ts /\ hour ts = 0 /\ minute ts = 0.
Proof.
  destruct cell as [s|]; simpl; [apply conversion_valid | discriminate].
Qed.

Lemma loaded_row_facts (src : CsvSource) (df : list Row) (r : Row) :
  load_data src = Some df -> In r df ->
  canonical r /\
  exists ts,
    Fecha_de_Creacion r = Some ts /\ valid_timestamp ts /\
    (forall c, Fecha_de_Conversion r = Some c ->
               valid_timestamp c /\ hour c = 0 /\ minute c = 0).
Proof.
  intros Hl Hr. split.
  - pose proof (load_data_canonical _ _ Hl) as Hc.
    rewrite Forall_forall in Hc. apply (Hc r Hr).
  - destruct (load_data_row_origin _ _ _ Hl Hr) as (x & ts & -> & Hts).
    exists ts. unfold limpia.
    cbn [derive Fecha_de_Creacion Fecha_de_Conversion dt_creacion
         dt_conversion].
    split; [exact Hts|]. split; [apply (coerce_creacion_valid _ _ Hts)|].
    intros c Hc. apply (coerce_conversion_valid _ _ Hc).
Qed.

(** X16.  Every row that [load_data] returns has a creation time that is
    a real calendar minute (month 1..12, a day of that month, hour 0..23,
    minute 0..59); 'Mes_Creacion' is its month and 'Mes_Año_Creacion' its
    year and month; a conversion time, when present, is a real calendar
    day at 00:00. *)
Theorem loaded_dates_are_calendar_dates
    (src : CsvSource) (df : list Row) (r : Row) :
  load_data src = Some df -> In r df ->
  exists ts,
    Fecha_de_Creacion r = Some ts /\ valid_timestamp ts /\
    Mes_Creacion r = Some (month ts) /\ 1 <= month ts <= 12 /\
    Mes_Anio_Creacion r = Some (year ts, month ts) /\
    (forall c, Fecha_de_Conversion r = Some c ->
               valid_timestamp c /\ hour c = 0 /\ minute c = 0).
Proof.
  intros Hl Hr.
  destruct (load_data_row_origin _ _ _ Hl Hr) as (x & ts & -> & Hts).
  pose proof (coerce_creacion_valid _ _ Hts) as Hv.
  exists ts. unfold limpia. cbn [derive Fecha_de_Creacion Mes_Creacion
    Mes_Anio_Creacion Fecha_de_Conversion dt_creacion dt_conversion].
  rewrite Hts. cbn [option_map].
  split; [reflexivity|]. split; [exact Hv|]. split; [reflexivity|].
  split; [apply Hv|]. split; [reflexivity|].
  intros c Hc. apply (coerce_conversion_valid _ _ Hc).
Qed.

Lemma loaded_dates_are_calendar_dates_witness :
  exists ts,
    Fecha_de_Creacion Sample.web_a = Some ts /\ valid_timestamp ts /\
    Mes_Creacion Sample.web_a = Some (month ts) /\ 1 <= month ts <= 12 /\
    Mes_Anio_Creacion Sample.web_a = Some (year ts, month ts) /\
    (forall c, Fecha_de_Conversion Sample.web_a = Some c ->
               valid_timestamp c /\ hour c = 0 /\ minute c = 0).
Proof.
  apply (loaded_dates_are_calendar_dates (Csv Sample.ventas) Sample.df).
  - vm_compute. reflexivity.
  - simpl. left. reflexivity.
Defined.

(** X17.  In every row that [load_data] returns with a conversion time,
    the days to conversion follow from the calendar days [k] between the
    creation day and the conversion day: for a lead created at 00:00 they
    are the absolute value of [k]; for a lead created later in the day
    they are [k - 1] when the sale is dated after the creation day and
    [1 - k] when it is dated on the creation day or before it. *)
Theorem days_to_conversion_by_calendar_days
    (src : CsvSource) (df : list Row) (r : Row)
    (creacion conversion : Timestamp) :
  load_data src = Some df -> In r df ->
  Fecha_de_Creacion r = Some creacion ->
  Fecha_de_Conversion r = Some conversion ->
  let k := dias_de_calendario creacion conversion in
  Dias_Hasta_Conversion r
  = Some (if (hour creacion =? 0) && (minute creacion =? 0) then Z.abs k
          else if 1 <=? k then k - 1 else 1 - k).
Proof.
  intros Hl Hr Hcre Hconv k.
  destruct (loaded_row_facts _ _ _ Hl Hr) as (Hcan & ts & Hts & Hv & Hmid).
  rewrite Hcre in Hts. injection Hts as <-.
  destruct (Hmid _ Hconv) as (_ & Hh & Hm).
  rewrite (can_dias _ Hcan), Hconv, Hcre. unfold dias_hasta_conversion.
  f_equal. unfold timedelta_days, epoch_minutes. rewrite Hh, Hm.
  destruct Hv as (_ & _ & Hhour & Hmin & _).
  subst k. unfold dias_de_calendario.
  set (dc := days_from_civil (year conversion) (month conversion)
               (day conversion)).
  set (df0 := days_from_civil (year creacion) (month creacion)
                (day creacion)).
  destruct ((hour creacion =? 0) && (minute creacion =? 0)) eqn:Hz.
  - apply andb_true_iff in Hz. destruct Hz as [H0 M0].
    apply Z.eqb_eq in H0, M0. rewrite H0, M0.
    replace (dc * 1440 + 0 * 60 + 0 - (df0 * 1440 + 0 * 60 + 0))
      with ((dc - df0) * 1440) by lia.
    rewrite Z.div_mul by lia. reflexivity.
  - assert (Ht : 0 < hour creacion * 60 + minute creacion < 1440).
    { apply andb_false_iff in Hz.
      destruct Hz as [Hz|Hz]; apply Z.eqb_neq in Hz; lia. }
    assert (Hd : (dc * 1440 + 0 * 60 + 0
                  - (df0 * 1440 + hour creacion * 60 + minute creacion))
                 / 1440 = dc - df0 - 1).
    { symmetry.
      apply (Z.div_unique _ 1440 _
               (1440 - (hour creacion * 60 + minute creacion))); lia. }
    rewrite Hd. destruct (1 <=? dc - df0) eqn:Hk.
    + apply Z.leb_le in Hk. lia.
    + apply Z.leb_gt in Hk. lia.
Qed.

Lemma days_to_conversion_by_calendar_days_witness :
  dias_de_calendario (mkTimestamp 2019 1 1 10 0) (mkTimestamp 2019 1 1 0 0)
  = 0 /\
  Dias_Hasta_Conversion Sample.web_a = Some 1 /\
  dias_de_calendario (mkTimestamp 2019 1 16 9 0) (mkTimestamp 2019 1 17 0 0)
  = 1 /\
  Dias_Hasta_Conversion Sample.tel_b = Some 0.
Proof.
  assert (Hl : load_data (Csv Sample.ventas) = Some Sample.df)
    by (vm_compute; reflexivity).
  split; [reflexivity|]. split; [|split; [reflexivity|]].
  - rewrite (days_to_conversion_by_calendar_days (Csv Sample.ventas)
               Sample.df Sample.web_a (mkTimestamp 2019 1 1 10 0)
               (mkTimestamp 2019 1 1 0 0) Hl);
      [reflexivity | simpl; tauto | reflexivity | reflexivity].
  - rewrite (days_to_conversion_by_calendar_days (Csv Sample.ventas)
               Sample.df Sample.tel_b (mkTimestamp 2019 1 16 9 0)
               (mkTimestamp 2019 1 17 0 0) Hl);
      [reflexivity | simpl; tauto | reflexivity | reflexivity].
Defined.

Lemma lstrip_nil_iff (l : list ascii) :
  lstrip l = [] <-> Forall (fun c => Strptime.is_space c = true) l.
Proof.
  induction l as [|c l IH]; simpl.
  - split; [constructor | reflexivity].
  - destruct (Strptime.is_space c) eqn:Hc.
    + rewrite IH. split; [constructor; assumption|].
      intros Hall. inversion Hall; assumption.
    + split; [discriminate|]. intros Hall. inversion Hall; congruence.
Qed.

Lemma lstrip_head (l : list ascii) (c : ascii) (rest : list ascii) :
  lstrip l = c :: rest -> Strptime.is_space c = false.
Proof.
  induction l as [|x l IH]; simpl; [discriminate|].
  destruct (Strptime.is_space x) eqn:Hx; [exact IH|].
  intros [= <- _]. exact Hx.
Qed.

Lemma strip_empty_iff (s : string) :
  strip s = EmptyString <->
  Forall (fun c => Strptime.is_space c = true) (list_ascii_of_string s).
Proof.
  unfold strip. rewrite <- lstrip_nil_iff.
  set (l := list_ascii_of_string s).
  destruct (lstrip l) as [|c rest] eqn:Hl.
  - simpl. tauto.
  - split; [|discriminate]. intros He. exfalso.
    pose proof (lstrip_head _ _ _ Hl) as Hc.
    assert (Hn : lstrip (rev (c :: rest)) = []).
    { destruct (lstrip (rev (c :: rest))) as [|y ys] eqn:Hr; [reflexivity|].
      destruct (rev (y :: ys)) as [|z zs] eqn:Hz.
      - apply (f_equal (@List.length _)) in Hz.
        rewrite length_rev in Hz. discriminate.
      - discriminate He. }
    apply lstrip_nil_iff in Hn. rewrite Forall_forall in Hn.
    rewrite (Hn c) in Hc; [discriminate|].
    apply -> in_rev. left. reflexivity.
Qed.

(** X18.  For a contact channel of ASCII text, the cleaner drops a row
    for a blank channel exactly when every character of the channel is
    white space (tab, line feed, vertical tab, form feed, carriage
    return, the four separators 28 to 31, or space; the empty string
    included); a row that it keeps carries its channel as it is written
    in the frame, surrounding blanks included. *)
Theorem blank_channel_is_all_white_space (r : RawRow) (s : string) :
  raw_contacto r = Some s ->
  ascii_text s = true ->
  (contacto_not_blank r = false <->
   Forall (fun c => In (nat_of_ascii c) [9; 10; 11; 12; 13; 28; 29; 30; 31; 32]%nat)
          (list_ascii_of_string s)) /\
  Toma_de_contacto (limpia r) = Some s.
Proof.
  intros Hs _. split; [|unfold limpia; simpl; exact Hs].
  unfold contacto_not_blank. rewrite Hs, negb_false_iff, String.eqb_eq.
  rewrite strip_empty_iff. split; apply Forall_impl; intros c.
  - unfold Strptime.is_space. cbv zeta.
    rewrite orb_true_iff, !andb_true_iff, !Nat.leb_le. cbn [In]. lia.
  - unfold Strptime.is_space. cbv zeta.
    rewrite orb_true_iff, !andb_true_iff, !Nat.leb_le. cbn [In]. lia.
Qed.

Lemma blank_channel_is_all_white_space_witness :
  contacto_not_blank (mkRaw (Some " Web "%string) None None None) = true /\
  Toma_de_contacto (limpia (mkRaw (Some " Web "%string) None None None))
  = Some " Web "%string.
Proof.
  destruct (blank_channel_is_all_white_space
              (mkRaw (Some " Web "%string) None None None) " Web "%string
              eq_refl eq_refl) as [_ Ht].
  split; [reflexivity | exact Ht].
Defined.
